(** * covid_project.data_cleaning: a shallow embedding of the cleaning pipelines

    The two pipelines of [src/covid_project/data_cleaning.py],
    [clean_covid_data] and [clean_policy_data], are pandas programs.  A
    DataFrame is modelled as a list of row records, each carrying its index
    label, because the source addresses rows by label ([df.drop(labels)],
    [df.loc[index, col] = v]).  Numeric cells that pandas holds as float64
    are modelled by exact rationals ([Q]); integer cells by [Z], the sums
    over an int64 column being int64 sums, which wrap around.  A nullable
    cell is an [option].  What the pipelines take from libraries is a
    parameter of theirs: [pd.to_datetime], [str.lower] and the tables of
    the [us] package.  Exceptions are values of [error]; the file system
    and the two remote data sets form an explicit [world] that the entry
    points thread through.  The text of a CSV file is not modelled: a file
    stands for the frame pandas reads from it. *)

From Stdlib Require Import ZArith QArith List String Ascii Bool Lia FinFun.
Import ListNotations.

Local Open Scope Z_scope.

(** ** Exceptions and results *)

Inductive error : Type :=
| AssertionError (mismatches : list string)
| ValueError
| KeyError
| TypeError
| AttributeError
| IOError.

Inductive result (A : Type) : Type :=
| Ok (a : A)
| Err (e : error).

Arguments Ok {A} a.
Arguments Err {A} e.

Definition bind {A B} (m : result A) (k : A -> result B) : result B :=
  match m with
  | Ok a => k a
  | Err e => Err e
  end.

Fixpoint mapM {A B} (f : A -> result B) (l : list A) : result (list B) :=
  match l with
  | [] => Ok []
  | x :: xs =>
      match f x with
      | Err e => Err e
      | Ok y =>
          match mapM f xs with
          | Err e => Err e
          | Ok ys => Ok (y :: ys)
          end
      end
  end.

(** ** Python strings *)

Module Str.

(** A text of ASCII characters only: every character is below 128. *)
Definition is_ascii (s : string) : bool :=
  forallb (fun c => Nat.ltb (nat_of_ascii c) 128) (list_ascii_of_string s).

(** [str.lower] on an ASCII text: the letters A to Z become a to z.
    Python lower-cases every cased character of Unicode, so the pipelines
    below take [str.lower] as a parameter; this function is what it does
    on ASCII texts, and the one the sample frames, whose cells are ASCII,
    are run with. *)
Definition lower_ascii (c : ascii) : ascii :=
  let n := nat_of_ascii c in
  if (Nat.leb 65 n && Nat.leb n 90)%bool then ascii_of_nat (n + 32) else c.

Fixpoint lower (s : string) : string :=
  match s with
  | EmptyString => EmptyString
  | String c s' => String (lower_ascii c) (lower s')
  end.

Fixpoint startswith (p s : string) : bool :=
  match p, s with
  | EmptyString, _ => true
  | String _ _, EmptyString => false
  | String a p', String b s' => Ascii.eqb a b && startswith p' s'
  end.

(** [needle in s], i.e. [Series.str.contains] for a pattern without
    regular-expression metacharacters. *)
Fixpoint contains (needle s : string) : bool :=
  startswith needle s ||
  match s with
  | EmptyString => false
  | String _ s' => contains needle s'
  end.

(** [s[n:]] *)
Fixpoint drop (n : nat) (s : string) : string :=
  match n, s with
  | O, _ => s
  | S _, EmptyString => EmptyString
  | S n', String _ s' => drop n' s'
  end.

Fixpoint rev_onto (s acc : string) : string :=
  match s with
  | EmptyString => acc
  | String c s' => rev_onto s' (String c acc)
  end.

Definition rev (s : string) : string := rev_onto s EmptyString.

(** [strip_prefix p s] is [Some t] when [s = p ++ t]. *)
Fixpoint strip_prefix (p s : string) : option string :=
  match p, s with
  | EmptyString, _ => Some s
  | String _ _, EmptyString => None
  | String a p', String b s' =>
      if Ascii.eqb a b then strip_prefix p' s' else None
  end.

Definition newline : ascii := ascii_of_nat 10.

(** [re.sub(pat + "$", "", s)] for a literal, non-empty [pat].  Python's
    [$] matches at the end of the string and also just before a newline
    that ends the string; at most one of the two positions can match. *)
Definition sub_at_end (pat s : string) : string :=
  let r := rev s in
  match strip_prefix (rev pat) r with
  | Some t => rev t
  | None =>
      match r with
      | String c r' =>
          if Ascii.eqb c newline then
            match strip_prefix (rev pat) r' with
            | Some t => rev (String newline t)
            | None => s
            end
          else s
      | EmptyString => s
      end
  end.

Definition mem (x : string) (l : list string) : bool :=
  existsb (String.eqb x) l.

(** [s] ends with [suf]. *)
Definition endswith (suf s : string) : Prop := exists p, s = (p ++ suf)%string.

(** The pattern [pat$] matches somewhere in [s]. *)
Definition matches_at_end (pat s : string) : Prop :=
  endswith pat s \/ endswith (pat ++ String newline "")%string s.

End Str.

(** ** Calendar dates

    A [datetime64] cell holding a date is the number of days since
    1970-01-01; [timedelta(days=n)] is [n]. *)

Module Date.

Definition days_from_civil (y m d : Z) : Z :=
  let y' := if m <=? 2 then y - 1 else y in
  let era := y' / 400 in
  let yoe := y' - era * 400 in
  let mp := (m + 9) mod 12 in
  let doy := (153 * mp + 2) / 5 + d - 1 in
  let doe := yoe * 365 + yoe / 4 - yoe / 100 + doy in
  era * 146097 + doe - 719468.

Definition is_leap (y : Z) : bool :=
  ((y mod 4 =? 0) && negb (y mod 100 =? 0)) || (y mod 400 =? 0).

Definition days_in_month (y m : Z) : Z :=
  if m =? 2 then (if is_leap y then 29 else 28)
  else if (m =? 4) || (m =? 6) || (m =? 9) || (m =? 11) then 30
  else 31.

Definition digit (c : ascii) : option Z :=
  let n := Z.of_nat (nat_of_ascii c) in
  if (48 <=? n) && (n <=? 57) then Some (n - 48) else None.

Fixpoint number (acc : Z) (l : list ascii) : option Z :=
  match l with
  | [] => Some acc
  | c :: l' =>
      match digit c with
      | Some d => number (10 * acc + d) l'
      | None => None
      end
  end.

(** The range of pandas' nanosecond timestamps, in days. *)
Definition min_day : Z := days_from_civil 1677 9 22.
Definition max_day : Z := days_from_civil 2262 4 11.

(** [pd.to_datetime] on a string in the [%Y-%m-%d] layout the two data
    sets use.  [None] stands for the exception pandas raises: the string
    is not a calendar date or lies outside the timestamp range.  pandas
    parses other layouts as well, so the pipelines take [pd.to_datetime]
    as a parameter; this function is what the sample frames, whose dates
    are in that layout, are run with. *)
Definition iso_to_datetime (s : string) : option Z :=
  match list_ascii_of_string s with
  | [y1; y2; y3; y4; "-"%char; m1; m2; "-"%char; d1; d2] =>
      match number 0 [y1; y2; y3; y4], number 0 [m1; m2], number 0 [d1; d2] with
      | Some y, Some m, Some d =>
          if (1 <=? m) && (m <=? 12) && (1 <=? d) && (d <=? days_in_month y m)
             && (min_day <=? days_from_civil y m d)
             && (days_from_civil y m d <=? max_day)
          then Some (days_from_civil y m d)
          else None
      | _, _, _ => None
      end
  | _ => None
  end.

End Date.

(** ** DataFrames as lists of labelled rows *)

Section Frame.

Context {A : Type} (label : A -> Z).

(** [df.drop(labels)]: every row whose label occurs in [labels] goes. *)
Definition drop (labels : list Z) (df : list A) : list A :=
  filter (fun r => negb (existsb (Z.eqb (label r)) labels)) df.

(** [df.drop(df[cond].index)] *)
Definition drop_where (cond : A -> bool) (df : list A) : list A :=
  drop (map label (filter cond df)) df.

(** [df.loc[l, col] = v], with [set] the update of the column: all rows
    labelled [l] are written. *)
Definition loc_set (l : Z) (set : A -> A) (df : list A) : list A :=
  map (fun r => if label r =? l then set r else r) df.

Definition unique_index (df : list A) : Prop := NoDup (map label df).

End Frame.

(** [Series.unique()]: the distinct values in order of first appearance. *)
Fixpoint unique (l : list string) : list string :=
  match l with
  | [] => []
  | x :: xs => x :: filter (fun y => negb (String.eqb y x)) (unique xs)
  end.

(** The value an int64 holds for the integer [z]: two's complement, so
    a result past either end of the range wraps around. *)
Definition wrap64 (z : Z) : Z := (z + 2 ^ 63) mod 2 ^ 64 - 2 ^ 63.

(** Addition of two int64 values. *)
Definition add64 (a b : Z) : Z := wrap64 (a + b).

(** [np.sum] over the values of an int64 column: the first value, then
    one int64 addition for each further value; 0 for no value. *)
Definition np_sum (l : list Z) : Z :=
  match l with
  | [] => 0
  | x :: xs => fold_left add64 xs x
  end.

(** ** The case/death table *)

(** A row of the raw time series, as [load_covid_data] returns it. *)
Record raw_case : Type := mk_raw_case {
  rc_index : Z;
  rc_date : string;
  rc_location_type : string;
  rc_location_name : string;
  rc_state : string;
  rc_fips_code : option Z;
  rc_total_population : option Z;
  rc_new_cases : option Z;
  rc_new_deaths : option Z;
  rc_new_cases_per_100_000 : option Q;
  rc_new_deaths_per_100_000 : option Q;
  rc_new_cases_7_day_rolling_avg : option Q;
  rc_new_deaths_7_day_rolling_avg : option Q
}.

(** A row of the table once its columns are renamed and typed.  The two
    [_7day_1e6] columns exist only after the normalisation step and are
    [None] before it. *)
Record case : Type := mk_case {
  index : Z;
  date : Z;
  fips_code : Z;
  county : string;
  state : string;
  full_loc_name : string;
  total_population : Z;
  new_cases : Z;
  new_deaths : Z;
  new_cases_1e6 : Q;
  new_deaths_1e6 : Q;
  new_cases_7day : option Q;
  new_deaths_7day : option Q;
  new_cases_7day_1e6 : option Q;
  new_deaths_7day_1e6 : option Q
}.

Definition set_new_cases_7day (v : option Q) (r : case) : case :=
  mk_case (index r) (date r) (fips_code r) (county r) (state r)
    (full_loc_name r) (total_population r) (new_cases r) (new_deaths r)
    (new_cases_1e6 r) (new_deaths_1e6 r) v (new_deaths_7day r)
    (new_cases_7day_1e6 r) (new_deaths_7day_1e6 r).

Definition set_new_deaths_7day (v : option Q) (r : case) : case :=
  mk_case (index r) (date r) (fips_code r) (county r) (state r)
    (full_loc_name r) (total_population r) (new_cases r) (new_deaths r)
    (new_cases_1e6 r) (new_deaths_1e6 r) (new_cases_7day r) v
    (new_cases_7day_1e6 r) (new_deaths_7day_1e6 r).

Definition fillna {A} (v : A) (c : option A) : A :=
  match c with
  | Some x => x
  | None => v
  end.

(** [Series.clip(lower=0)] followed by [fillna(0)] *)
Definition clip_fill (c : option Q) : Q :=
  match c with
  | Some q => if Qle_bool 0 q then q else 0%Q
  | None => 0%Q
  end.

Definition max_date : string := "2021-12-31".

Definition seed_cutoff : Z := Date.days_from_civil 2020 1 30.

Definition days_7 : Z := 7.

Section CleanCovid.

(** [pd.to_datetime] on one cell; [None] when pandas raises. *)
Variable to_datetime : string -> option Z.

(** [str.lower] on one cell. *)
Variable lower : string -> string.

(** [df = df[df["date"] < max_date]]: a comparison of strings, the column
    is not parsed yet. *)
Definition restrict_date (df : list raw_case) : list raw_case :=
  filter (fun r => String.ltb (rc_date r) max_date) df.

Definition drop_non_county (df : list raw_case) : list raw_case :=
  drop_where rc_index
    (fun r => negb (Str.mem (rc_location_type r) ["county"%string])) df.

(** [df["fips_code"].astype(np.int64)] raises on a null cell. *)
Definition cast_fips (df : list raw_case) : result (list raw_case) :=
  if forallb (fun r => match rc_fips_code r with Some _ => true | None => false end) df
  then Ok df else Err ValueError.

Definition drop_territories (df : list raw_case) : list raw_case :=
  drop_where rc_index
    (fun r => Str.mem (rc_state r) ["Puerto Rico"; "District of Columbia"]%string) df.

(** The two hard-coded census populations, then the cast to int64. *)
Definition population (county state : string) (raw : option Z) : option Z :=
  let p :=
    if (String.eqb county "chugach" && String.eqb state "Alaska")%bool
    then Some 7102 else raw in
  if (String.eqb county "copper river" && String.eqb state "Alaska")%bool
  then Some 2617 else p.

(** The column-wise steps between the two row filters and the gap fill,
    seen from one row: lower-cased county, [full_loc_name], parsed date,
    population, zero-filled counts, clipped rates.  Each failing cast
    raises the same exception class, so the row-wise order is not
    observable. *)
Definition type_row (r : raw_case) : result case :=
  match rc_fips_code r with
  | None => Err ValueError
  | Some fips =>
      let cty := lower (rc_location_name r) in
      match to_datetime (rc_date r) with
      | None => Err ValueError
      | Some d =>
          match population cty (rc_state r) (rc_total_population r) with
          | None => Err ValueError
          | Some pop =>
              Ok (mk_case (rc_index r) d fips cty (rc_state r)
                    (cty ++ ", " ++ rc_state r)%string pop
                    (fillna 0 (rc_new_cases r)) (fillna 0 (rc_new_deaths r))
                    (clip_fill (rc_new_cases_per_100_000 r))
                    (clip_fill (rc_new_deaths_per_100_000 r))
                    (rc_new_cases_7_day_rolling_avg r)
                    (rc_new_deaths_7_day_rolling_avg r)
                    None None)
          end
      end
  end.

(** Everything up to, and not including, the 7-day gap fill. *)
Definition prepare (df : list raw_case) : result (list case) :=
  bind (cast_fips (drop_non_county (restrict_date df)))
       (fun df => mapM type_row (drop_territories df)).

(** [df[cols].mask(df["date"] < cutoff, df[cols].fillna(0))] *)
Definition fill_seed (r : case) : case :=
  if date r <? seed_cutoff then
    set_new_deaths_7day (Some (fillna 0%Q (new_deaths_7day r)))
      (set_new_cases_7day (Some (fillna 0%Q (new_cases_7day r))) r)
  else r.

Definition isnull {B} (c : option B) : bool :=
  match c with
  | Some _ => false
  | None => true
  end.

(** The boolean mask of the trailing window of [data] inside [df]. *)
Definition in_window (data r : case) : bool :=
  String.eqb (full_loc_name r) (full_loc_name data)
  && ((date r <=? date data) && (date data - days_7 <? date r)).

Definition window_avg (count : case -> Z) (df : list case) (data : case) : Q :=
  (inject_Z (np_sum (map count (filter (in_window data) df))) / 7)%Q.

(** One of the two [for index, data in nulls.iterrows()] loops. *)
Definition recalc (count : case -> Z) (set : option Q -> case -> case)
    (nulls df : list case) : list case :=
  fold_left
    (fun df data =>
       loc_set index (index data) (set (Some (window_avg count df data))) df)
    nulls df.

(** [avg / (pop / 1e5)].  For a zero population numpy gives [inf] or
    [nan]; the model has [None] for either. *)
Definition per_100k (avg : option Q) (pop : Z) : option Q :=
  match avg with
  | Some a => if pop =? 0 then None else Some (a / (inject_Z pop / 100000))%Q
  | None => None
  end.

Definition normalize (r : case) : case :=
  mk_case (index r) (date r) (fips_code r) (county r) (state r)
    (full_loc_name r) (total_population r) (new_cases r) (new_deaths r)
    (new_cases_1e6 r) (new_deaths_1e6 r) (new_cases_7day r) (new_deaths_7day r)
    (per_100k (new_cases_7day r) (total_population r))
    (per_100k (new_deaths_7day r) (total_population r)).

(** [df[df["new_cases_7day"].isnull()]] and its twin *)
Definition nulls_case7day (df : list case) : list case :=
  filter (fun r => isnull (new_cases_7day r)) df.

Definition nulls_death7day (df : list case) : list case :=
  filter (fun r => isnull (new_deaths_7day r)) df.

(** The gap fill: seed rows, then the two recomputation loops over the
    rows that were null when the loops were entered. *)
Definition fill_7day (df : list case) : list case :=
  let df0 := map fill_seed df in
  let df1 := recalc new_cases set_new_cases_7day (nulls_case7day df0) df0 in
  recalc new_deaths set_new_deaths_7day (nulls_death7day df0) df1.

(** The body of [clean_covid_data] below the cache test. *)
Definition clean_covid_df (df : list raw_case) : result (list case) :=
  bind (prepare df) (fun df => Ok (map normalize (fill_7day df))).

End CleanCovid.

(** ** The policy table *)

(** A row of the raw policy log, as [load_policy_data] returns it, without
    the four columns the pipeline drops first ([geocoded_state],
    [comments], [source], [total_phases]). *)
Record raw_policy : Type := mk_raw_policy {
  rp_index : Z;
  rp_state_id : string;
  rp_county : option string;
  rp_fips_code : option Z;
  rp_policy_level : string;
  rp_date : string;
  rp_policy_type : string;
  rp_start_stop : string
}.

(** A row of the cleaned policy table. *)
Record policy : Type := mk_policy {
  p_index : Z;
  p_state : string;
  p_county : string;
  p_fips_code : Z;
  p_policy_level : string;
  p_date : Z;
  p_policy_type : string;
  p_start_stop : string
}.

(** An entry of the [us] package's state table. *)
Record State : Type := mk_State {
  abbr : string;
  name : string;
  fips : Z
}.

(** [d.get(k)] for a dict built from the pairs [d] in order: a later pair
    with the same key has overwritten an earlier one. *)
Fixpoint dict_get (k : string) (d : list (string * string)) : option string :=
  match d with
  | [] => None
  | (k', v) :: d' =>
      match dict_get k d' with
      | Some v' => Some v'
      | None => if String.eqb k k' then Some v else None
      end
  end.

(** [DataFrame.replace(to_replace=d)] on one string cell: the whole cell
    must equal a key. *)
Definition replace_cell (d : list (string * string)) (c : string) : string :=
  match dict_get c d with
  | Some v => v
  | None => c
  end.

Definition policy_replacements_dict : list (string * string) :=
  [ ("Stop Initiation Of Evictions Overall Or Due To Covid Related Issues",
     "Stop Initiation Of Evictions");
    ("Modify Medicaid Requirements With 1135 Waivers Date Of CMS Approval",
     "Modify Medicaid Requirements");
    ("Stop Enforcement Of Evictions Overall Or Due To Covid Related Issues",
     "Stop Enforcement Of Evictions");
    ("Mandate Face Mask Use By All Individuals In Public Facing Businesses",
     "Mandate Face Masks In Businesses");
    ("Mandate Face Mask Use By All Individuals In Public Spaces",
     "Mandate Face Masks In Public Spaces");
    ("Reopened ACA Enrollment Using a Special Enrollment Period",
     "ACA Special Enrollment Period");
    ("Suspended Elective Medical Dental Procedures",
     "Suspend Elective Dental Procedures");
    ("Allow Expand Medicaid Telehealth Coverage",
     "Expand Medicaid Telehealth Coverage");
    ("Renter Grace Period Or Use Of Security Deposit To Pay Rent",
     "Grace Period / Security Deposit for Rent") ]%string.

Definition policies_drop : list string :=
  ["phase 1"; "phase 2"; "phase 3"; "phase 4"; "phase 5"; "new phase"]%string.

(** The four [Series.replace] calls with the compiled patterns
    [" county$"], [" municipality$"], [" city$"], [" borough$"], one after
    the other. *)
Definition strip_suffixes (s : string) : string :=
  Str.sub_at_end " borough"
    (Str.sub_at_end " city"
       (Str.sub_at_end " municipality"
          (Str.sub_at_end " county" s))).

(** What the county steps make of one cell: null becomes ["statewide"],
    then lower case, then the suffix patterns. *)
Definition normalize_county (lower : string -> string) (c : option string)
  : string :=
  strip_suffixes (lower (fillna "statewide"%string c)).

(** The typo repair: ['2020' + elem[4:]] where the cell contains ['0020']. *)
Definition fix_date (s : string) : string :=
  if Str.contains "0020" s then ("2020" ++ Str.drop 4 s)%string else s.

(** [min(series)] and [max(series)]; both raise on an empty series. *)
Definition series_min (l : list Z) : result Z :=
  match l with
  | [] => Err ValueError
  | x :: xs => Ok (fold_left Z.min xs x)
  end.

Definition series_max (l : list Z) : result Z :=
  match l with
  | [] => Err ValueError
  | x :: xs => Ok (fold_left Z.max xs x)
  end.

Section CleanPolicy.

(** [pd.to_datetime] on one cell; [None] when pandas raises. *)
Variable to_datetime : string -> option Z.

(** [str.lower] on one cell. *)
Variable lower : string -> string.

(** The tables of the [us] package: [us.states.STATES], the list
    [us.states.mapping] ranges over when it is given no [states]
    argument, and [us.states.lookup]. *)
Variable STATES : list State.
Variable STATES_AND_TERRITORIES : list State.
Variable lookup : string -> option State.

(** [us.states.mapping(from_field, to_field)] *)
Definition mapping (from_field to_field : State -> string) : list (string * string) :=
  map (fun s => (from_field s, to_field s)) STATES_AND_TERRITORIES.

Definition drop_non_states (df : list raw_policy) : list raw_policy :=
  let abbr := map abbr STATES in
  drop_where rp_index (fun r => negb (Str.mem (rp_state_id r) abbr)) df.

(** [df.replace(to_replace=us.states.mapping("abbr", "name"))]: no
    column is named, so every cell of the frame is looked up. *)
Definition replace_states (r : raw_policy) : raw_policy :=
  let d := mapping abbr name in
  mk_raw_policy (rp_index r)
    (replace_cell d (rp_state_id r))
    (option_map (replace_cell d) (rp_county r))
    (rp_fips_code r)
    (replace_cell d (rp_policy_level r))
    (replace_cell d (rp_date r))
    (replace_cell d (rp_policy_type r))
    (replace_cell d (rp_start_stop r)).

Definition set_county (c : string) (r : raw_policy) : raw_policy :=
  mk_raw_policy (rp_index r) (rp_state_id r) (Some c) (rp_fips_code r)
    (rp_policy_level r) (rp_date r) (rp_policy_type r) (rp_start_stop r).

Definition set_fips (f : Z) (r : raw_policy) : raw_policy :=
  mk_raw_policy (rp_index r) (rp_state_id r) (rp_county r) (Some f)
    (rp_policy_level r) (rp_date r) (rp_policy_type r) (rp_start_stop r).

Definition set_date (d : string) (r : raw_policy) : raw_policy :=
  mk_raw_policy (rp_index r) (rp_state_id r) (rp_county r) (rp_fips_code r)
    (rp_policy_level r) d (rp_policy_type r) (rp_start_stop r).

(** The frame when the reconciliation is made: territories dropped,
    abbreviations replaced, counties normalised. *)
Definition normalized (df : list raw_policy) : list raw_policy :=
  map (fun r => set_county (normalize_county lower (rp_county r)) r)
    (map replace_states (drop_non_states df)).

(** [df["county"]] once the nulls are filled. *)
Definition county_of (r : raw_policy) : string :=
  fillna "statewide"%string (rp_county r).

Definition county_column (df : list raw_policy) : list string :=
  map county_of df.

(** The list comprehension over the distinct non-statewide counties. *)
Definition mismatches (timeseries_df : list case) (df : list raw_policy) : list string :=
  let locs := unique (map county timeseries_df) in
  filter (fun county => negb (Str.mem county locs))
    (unique (filter (fun c => negb (String.eqb c "statewide")) (county_column df))).

(** [np.int64(us.states.lookup(us.states.mapping("name", "abbr").get(state)).fips)] *)
Definition state_fips (state : string) : result Z :=
  match dict_get state (mapping name abbr) with
  | None => Err TypeError
  | Some a =>
      match lookup a with
      | None => Err AttributeError
      | Some s => Ok (fips s)
      end
  end.

(** The loop over [df.iterrows()] that gives state-level rows the FIPS
    code of their state. *)
Fixpoint assign_fips (rows df : list raw_policy) : result (list raw_policy) :=
  match rows with
  | [] => Ok df
  | data :: rows' =>
      if String.eqb (rp_policy_level data) "state" then
        match state_fips (rp_state_id data) with
        | Err e => Err e
        | Ok f => assign_fips rows' (loc_set rp_index (rp_index data) (set_fips f) df)
        end
      else assign_fips rows' df
  end.

(** The cast of [fips_code] and the parse of the repaired [date]. *)
Definition type_policy (r : raw_policy) : result policy :=
  match rp_fips_code r with
  | None => Err ValueError
  | Some f =>
      match to_datetime (rp_date r) with
      | None => Err ValueError
      | Some d =>
          Ok (mk_policy (rp_index r) (rp_state_id r) (county_of r) f
                (rp_policy_level r) d (rp_policy_type r) (rp_start_stop r))
      end
  end.

Definition cast_policy_fips (df : list raw_policy) : result (list raw_policy) :=
  if forallb (fun r => match rp_fips_code r with Some _ => true | None => false end) df
  then Ok df else Err ValueError.

Definition out_of_range (lo hi : Z) (r : policy) : bool :=
  (p_date r <? lo) || (hi <? p_date r).

Definition set_policy_type (t : string) (r : policy) : policy :=
  mk_policy (p_index r) (p_state r) (p_county r) (p_fips_code r)
    (p_policy_level r) (p_date r) t (p_start_stop r).

(** The loop over the keys of [policy_replacements_dict]. *)
Definition rename_policy (t : string) : string :=
  fold_left (fun t kv => if String.eqb t (fst kv) then snd kv else t)
    policy_replacements_dict t.

Definition drop_phases (df : list policy) : list policy :=
  drop_where p_index (fun r => Str.mem (p_policy_type r) policies_drop) df.

(** The body of [clean_policy_data] below the cache test, given the
    cleaned time series. *)
Definition clean_policy_df (timeseries_df : list case) (df : list raw_policy)
  : result (list policy) :=
  let df := normalized df in
  match mismatches timeseries_df df with
  | (_ :: _) as m => Err (AssertionError m)
  | [] =>
      bind (assign_fips df df) (fun df =>
      bind (cast_policy_fips df) (fun df =>
      bind (mapM type_policy (map (fun r => set_date (fix_date (rp_date r)) r) df)) (fun df =>
      bind (series_min (map date timeseries_df)) (fun lo =>
      bind (series_max (map date timeseries_df)) (fun hi =>
      let df := drop_where p_index (out_of_range lo hi) df in
      let df := map (fun r => set_policy_type (lower (rename_policy (p_policy_type r))) r) df in
      Ok (drop_phases df))))))
  end.

End CleanPolicy.

(** ** Files, downloads and the two entry points *)

(** A CSV file on disk, taken as the frame [pd.read_csv] parses from it;
    its text is not modelled.  So a frame that [to_csv] writes stands on
    disk as itself, where pandas would read the text back with some
    float64 cells changed in their last digits: no statement below reads
    a frame back that the same run, or an earlier one, has written.  A
    file is of one of four kinds; for a file of another kind than the
    reader expects the model stops with an exception, where pandas would
    go on with a frame of other columns. *)
Inductive file : Type :=
| CaseRaw (df : list raw_case)
| CaseClean (df : list case)
| PolicyRaw (df : list raw_policy)
| PolicyClean (df : list policy).

Record world : Type := mk_world {
  files : string -> option file;
  remote_cases : option (list raw_case);
  remote_policies : option (list raw_policy)
}.

Definition to_csv (path : string) (f : file) (w : world) : world :=
  mk_world (fun p => if String.eqb p path then Some f else files w p)
    (remote_cases w) (remote_policies w).

(** A computation that may raise and may write files; what was written
    before an exception stays written. *)
Definition io (A : Type) : Type := world -> result A * world.

Definition ret {A} (a : A) : io A := fun w => (Ok a, w).

Definition raise {A} (e : error) : io A := fun w => (Err e, w).

Definition lift {A} (r : result A) : io A := fun w => (r, w).

Definition io_bind {A B} (m : io A) (k : A -> io B) : io B :=
  fun w =>
    match m w with
    | (Ok a, w') => k a w'
    | (Err e, w') => (Err e, w')
    end.

Notation "x <- m ;; k" := (io_bind m (fun x => k))
  (at level 61, m at next level, right associativity).

Definition exists_ (path : string) : io bool :=
  fun w => (Ok (match files w path with Some _ => true | None => false end), w).

Definition write (path : string) (f : file) : io unit :=
  fun w => (Ok tt, to_csv path f w).

(** A freshly built frame has the labels 0, 1, 2, ... *)
Definition range_index {A} (set : Z -> A -> A) (l : list A) : list A :=
  map (fun ir => set (Z.of_nat (fst ir)) (snd ir)) (combine (seq 0 (List.length l)) l).

Definition set_rc_index (i : Z) (r : raw_case) : raw_case :=
  mk_raw_case i (rc_date r) (rc_location_type r) (rc_location_name r)
    (rc_state r) (rc_fips_code r) (rc_total_population r) (rc_new_cases r)
    (rc_new_deaths r) (rc_new_cases_per_100_000 r) (rc_new_deaths_per_100_000 r)
    (rc_new_cases_7_day_rolling_avg r) (rc_new_deaths_7_day_rolling_avg r).

Definition set_rp_index (i : Z) (r : raw_policy) : raw_policy :=
  mk_raw_policy i (rp_state_id r) (rp_county r) (rp_fips_code r)
    (rp_policy_level r) (rp_date r) (rp_policy_type r) (rp_start_stop r).

Definition read_case_raw (path : string) : io (list raw_case) :=
  fun w =>
    match files w path with
    | Some (CaseRaw df) => (Ok df, w)
    | Some _ => (Err KeyError, w)
    | None => (Err IOError, w)
    end.

Definition read_case_clean (path : string) : io (list case) :=
  fun w =>
    match files w path with
    | Some (CaseClean df) => (Ok df, w)
    | Some _ => (Err KeyError, w)
    | None => (Err IOError, w)
    end.

Definition read_policy_raw (path : string) : io (list raw_policy) :=
  fun w =>
    match files w path with
    | Some (PolicyRaw df) => (Ok df, w)
    | Some _ => (Err KeyError, w)
    | None => (Err IOError, w)
    end.

Definition read_policy_clean (path : string) : io (list policy) :=
  fun w =>
    match files w path with
    | Some (PolicyClean df) => (Ok df, w)
    | Some _ => (Err KeyError, w)
    | None => (Err IOError, w)
    end.

Definition download_cases : io (list raw_case) :=
  fun w =>
    match remote_cases w with
    | Some df => (Ok (range_index set_rc_index df), w)
    | None => (Err IOError, w)
    end.

Definition download_policies : io (list raw_policy) :=
  fun w =>
    match remote_policies w with
    | Some df => (Ok (range_index set_rp_index df), w)
    | None => (Err IOError, w)
    end.

Definition load_covid_data (path : string) (force_reload : bool) : io (list raw_case) :=
  there <- exists_ path ;;
  if there && negb force_reload then read_case_raw path
  else
    df <- download_cases ;;
    _ <- write path (CaseRaw df) ;;
    ret df.

Definition load_policy_data (path : string) (force_reload : bool) : io (list raw_policy) :=
  there <- exists_ path ;;
  if there && negb force_reload then read_policy_raw path
  else
    df <- download_policies ;;
    _ <- write path (PolicyRaw df) ;;
    ret df.

Section EntryPoints.

Variable to_datetime : string -> option Z.
Variable lower : string -> string.
Variable STATES : list State.
Variable STATES_AND_TERRITORIES : list State.
Variable lookup : string -> option State.

Definition clean_and_save_cases (clean_path : string) (df : list raw_case)
  : io (list case) :=
  df <- lift (clean_covid_df to_datetime lower df) ;;
  _ <- write clean_path (CaseClean df) ;;
  ret df.

Definition clean_covid_data (df : option (list raw_case))
    (path clean_path : string) (force_reload force_reclean : bool)
  : io (list case) :=
  match df with
  | Some df => clean_and_save_cases clean_path df
  | None =>
      there <- exists_ clean_path ;;
      if there && negb force_reclean then read_case_clean clean_path
      else
        df <- load_covid_data path force_reload ;;
        clean_and_save_cases clean_path df
  end.

Definition covid_timeseries_csv : string := "./data/covid_timeseries.csv".

Definition clean_and_save_policies (cleaned_timeseries_path clean_path : string)
    (df : list raw_policy) : io (list policy) :=
  timeseries_df <-
    clean_covid_data None covid_timeseries_csv cleaned_timeseries_path false false ;;
  df <- lift (clean_policy_df to_datetime lower STATES STATES_AND_TERRITORIES lookup
                timeseries_df df) ;;
  _ <- write clean_path (PolicyClean df) ;;
  ret df.

Definition clean_policy_data (df : option (list raw_policy))
    (cleaned_timeseries_path path clean_path : string)
    (force_reload force_reclean : bool) : io (list policy) :=
  match df with
  | Some df => clean_and_save_policies cleaned_timeseries_path clean_path df
  | None =>
      there <- exists_ clean_path ;;
      if there && negb force_reclean then read_policy_clean clean_path
      else
        df <- load_policy_data path force_reload ;;
        clean_and_save_policies cleaned_timeseries_path clean_path df
  end.

(** The branches of the two entry points that do not return the cache,
    on their own. *)
Definition recompute_cases (path clean_path : string) (force_reload : bool)
  : io (list case) :=
  df <- load_covid_data path force_reload ;;
  clean_and_save_cases clean_path df.

Definition recompute_policies (cleaned_timeseries_path path clean_path : string)
    (force_reload : bool) : io (list policy) :=
  df <- load_policy_data path force_reload ;;
  clean_and_save_policies cleaned_timeseries_path clean_path df.

End EntryPoints.

(** ** The [us] package's tables

    The entries of [us.states.STATES] and of the territories, used to run
    the policy pipeline on concrete frames. *)

Module Us.

Definition STATES : list State :=
  [ mk_State "AL" "Alabama" 1; mk_State "AK" "Alaska" 2;
    mk_State "AZ" "Arizona" 4; mk_State "AR" "Arkansas" 5;
    mk_State "CA" "California" 6; mk_State "CO" "Colorado" 8;
    mk_State "CT" "Connecticut" 9; mk_State "DE" "Delaware" 10;
    mk_State "FL" "Florida" 12; mk_State "GA" "Georgia" 13;
    mk_State "HI" "Hawaii" 15; mk_State "ID" "Idaho" 16;
    mk_State "IL" "Illinois" 17; mk_State "IN" "Indiana" 18;
    mk_State "IA" "Iowa" 19; mk_State "KS" "Kansas" 20;
    mk_State "KY" "Kentucky" 21; mk_State "LA" "Louisiana" 22;
    mk_State "ME" "Maine" 23; mk_State "MD" "Maryland" 24;
    mk_State "MA" "Massachusetts" 25; mk_State "MI" "Michigan" 26;
    mk_State "MN" "Minnesota" 27; mk_State "MS" "Mississippi" 28;
    mk_State "MO" "Missouri" 29; mk_State "MT" "Montana" 30;
    mk_State "NE" "Nebraska" 31; mk_State "NV" "Nevada" 32;
    mk_State "NH" "New Hampshire" 33; mk_State "NJ" "New Jersey" 34;
    mk_State "NM" "New Mexico" 35; mk_State "NY" "New York" 36;
    mk_State "NC" "North Carolina" 37; mk_State "ND" "North Dakota" 38;
    mk_State "OH" "Ohio" 39; mk_State "OK" "Oklahoma" 40;
    mk_State "OR" "Oregon" 41; mk_State "PA" "Pennsylvania" 42;
    mk_State "RI" "Rhode Island" 44; mk_State "SC" "South Carolina" 45;
    mk_State "SD" "South Dakota" 46; mk_State "TN" "Tennessee" 47;
    mk_State "TX" "Texas" 48; mk_State "UT" "Utah" 49;
    mk_State "VT" "Vermont" 50; mk_State "VA" "Virginia" 51;
    mk_State "WA" "Washington" 53; mk_State "WV" "West Virginia" 54;
    mk_State "WI" "Wisconsin" 55; mk_State "WY" "Wyoming" 56 ]%string.

Definition TERRITORIES : list State :=
  [ mk_State "AS" "American Samoa" 60; mk_State "GU" "Guam" 66;
    mk_State "MP" "Northern Mariana Islands" 69;
    mk_State "PR" "Puerto Rico" 72; mk_State "VI" "Virgin Islands" 78 ]%string.

Definition STATES_AND_TERRITORIES : list State := STATES ++ TERRITORIES.

Definition lookup (val : string) : option State :=
  find (fun s => String.eqb (abbr s) val) STATES_AND_TERRITORIES.

End Us.

(** ** Sample frames *)

Module Sample.

Definition day (d : Z) (s : string) (n : Z) (avg : option Q) (i : Z) : raw_case :=
  mk_raw_case i s "county" "Orange" "California" (Some 6059) (Some 3000000)
    (Some n) (Some 0) (Some 0%Q) (Some 0%Q) avg (Some 0%Q).

(** Ten consecutive days of one county; the feed's average is missing on
    the eighth. *)
Definition ten_days : list raw_case :=
  [ day 1 "2020-03-01" 10 (Some 1) 0; day 2 "2020-03-02" 20 (Some 1) 1;
    day 3 "2020-03-03" 30 (Some 1) 2; day 4 "2020-03-04" 40 (Some 1) 3;
    day 5 "2020-03-05" 50 (Some 1) 4; day 6 "2020-03-06" 60 (Some 1) 5;
    day 7 "2020-03-07" 70 (Some 1) 6; day 8 "2020-03-08" 80 None 7;
    day 9 "2020-03-09" 90 (Some 1) 8; day 10 "2020-03-10" 100 (Some 1) 9 ]%string%Q.

(** A second county and a seed-period row added to [ten_days]. *)
Definition two_counties : list raw_case :=
  ten_days ++
  [ mk_raw_case 10 "2020-03-08" "county" "Kern" "California" (Some 6029)
      (Some 900000) (Some 7000) (Some 7) None None None None;
    mk_raw_case 11 "2020-01-25" "county" "Kern" "California" (Some 6029)
      (Some 900000) None None None None None (Some (3 # 2));
    mk_raw_case 12 "2020-03-08" "state" "California" "California" (Some 6)
      (Some 39000000) (Some 1) (Some 1) None None None None ]%string.

Definition policies : list raw_policy :=
  [ mk_raw_policy 0 "CA" (Some "Orange County") (Some 6059) "county"
      "0020-03-05" "Shelter in Place" "start";
    mk_raw_policy 1 "CA" None None "state"
      "2020-03-04" "Mandate Face Mask Use By All Individuals In Public Spaces" "start";
    mk_raw_policy 2 "CA" None None "state" "2020-06-01" "Phase 2" "start";
    mk_raw_policy 3 "PR" None None "state" "2020-03-04" "Shelter in Place" "start";
    mk_raw_policy 4 "CA" None None "state" "2021-03-04" "Shelter in Place" "stop"
  ]%string.

(** Two counties whose rows carry the same index label. *)
Definition shared_label : list raw_case :=
  [ mk_raw_case 0 "2020-03-08" "county" "Orange" "California" (Some 6059)
      (Some 3000000) (Some 70) (Some 0) None None None (Some 0%Q);
    mk_raw_case 0 "2020-03-08" "county" "Kern" "California" (Some 6029)
      (Some 900000) (Some 7000) (Some 0) None None None (Some 0%Q) ]%string.

(** A row of the seed period and a later row of the same county under one
    index label. *)
Definition seed_shares_label : list raw_case :=
  [ mk_raw_case 0 "2020-01-25" "county" "Kern" "California" (Some 6029)
      (Some 900000) None None None None None (Some (3 # 2)%Q);
    mk_raw_case 0 "2020-03-08" "county" "Kern" "California" (Some 6029)
      (Some 900000) (Some 7000) (Some 14) None None None None ]%string.

(** The feed reports one county-day twice. *)
Definition reported_twice : list raw_case :=
  [ day 1 "2020-03-01" 10 (Some 1%Q) 0; day 1 "2020-03-01" 12 (Some 1%Q) 1 ]%string.

Definition prepared : list case :=
  Eval vm_compute in
    match prepare Date.iso_to_datetime Str.lower two_counties with
    | Ok df => df
    | Err _ => []
    end.

Definition timeseries : list case :=
  Eval vm_compute in
    match clean_covid_df Date.iso_to_datetime Str.lower two_counties with
    | Ok df => df
    | Err _ => []
    end.

(** Orange County, Texas, when the time series knows Orange County,
    California only. *)
Definition texas_orange : list raw_policy :=
  [ mk_raw_policy 0 "TX" (Some "Orange County") (Some 48361) "county"
      "2020-03-05" "Shelter in Place" "start" ]%string.

(** Two counties the time series does not know, one of them twice. *)
Definition unknown_counties : list raw_policy :=
  [ mk_raw_policy 0 "CA" (Some "Foo County") (Some 6001) "county"
      "2020-03-05" "Shelter in Place" "start";
    mk_raw_policy 1 "CA" (Some "Orange County") (Some 6059) "county"
      "2020-03-05" "Shelter in Place" "start";
    mk_raw_policy 2 "CA" (Some "Bar city") (Some 6003) "county"
      "2020-03-06" "Shelter in Place" "start";
    mk_raw_policy 3 "CA" (Some "Foo County") (Some 6001) "county"
      "2020-03-07" "Shelter in Place" "stop" ]%string.

Definition cleaned_policies : list policy :=
  Eval vm_compute in
    match clean_policy_df Date.iso_to_datetime Str.lower Us.STATES
            Us.STATES_AND_TERRITORIES Us.lookup timeseries policies with
    | Ok df => df
    | Err _ => []
    end.

(** A policy row of California whose [start_stop] cell reads like the
    postal code of a territory. *)
Definition territory_cell : list raw_policy :=
  [ mk_raw_policy 0 "CA" (Some "Orange County") (Some 6059) "county"
      "2020-03-05" "Shelter in Place" "PR" ]%string.

(** The two Alaska census areas the feed has no population for, and a
    borough it has one for. *)
Definition alaska : list raw_case :=
  [ mk_raw_case 0 "2020-06-01" "county" "Chugach" "Alaska" (Some 2063) None
      (Some 1) (Some 0) (Some 0%Q) (Some 0%Q) (Some 0%Q) (Some 0%Q);
    mk_raw_case 1 "2020-06-01" "county" "Copper River" "Alaska" (Some 2066)
      (Some 5) (Some 2) (Some 0) (Some 0%Q) (Some 0%Q) (Some 0%Q) (Some 0%Q);
    mk_raw_case 2 "2020-06-01" "county" "Juneau" "Alaska" (Some 2110)
      (Some 32000) (Some 3) (Some 0) (Some (-1)%Q) (Some 0%Q) (Some 0%Q)
      (Some 0%Q) ]%string.

Definition alaska_cleaned : list case :=
  Eval vm_compute in
    match clean_covid_df Date.iso_to_datetime Str.lower alaska with
    | Ok df => df
    | Err _ => []
    end.

(** A disk that holds the cleaned time series and a cleaned policy
    table, with the network down. *)
Definition cached_world : world :=
  mk_world
    (fun p =>
       if String.eqb p "./data/covid_timeseries_cleaned.csv"
       then Some (CaseClean timeseries)
       else if String.eqb p "./data/covid_policies_cleaned.csv"
            then Some (PolicyClean cleaned_policies)
            else None)
    None None.

(** An empty disk and both data sets on the network. *)
Definition fresh_world : world :=
  mk_world (fun _ => None) (Some two_counties) (Some policies).

End Sample.

(** ** Vocabulary of the statements *)

(** The raw rows that survive the three row filters. *)
Definition kept (df : list raw_case) : list raw_case :=
  drop_territories (drop_non_county (restrict_date df)).

(** The rows of [df] in the trailing window of [r]: same location, date in
    (date r - 7 days, date r]. *)
Definition trailing_window (df : list case) (r : case) : list case :=
  filter (fun x => String.eqb (full_loc_name x) (full_loc_name r)
                   && (date r - 7 <? date x) && (date x <=? date r)) df.

(** The gap fill of one row, given the frame after the seed fill. *)
Definition fill_row (df : list case) (r : case) : case :=
  let r1 :=
    if isnull (new_cases_7day r)
    then set_new_cases_7day (Some (window_avg new_cases df r)) r else r in
  if isnull (new_deaths_7day r)
  then set_new_deaths_7day (Some (window_avg new_deaths df r)) r1 else r1.

(** What one output row is, with unique labels. *)
Definition clean_row (df : list case) (r : case) : case :=
  normalize (fill_row (map fill_seed df) (fill_seed r)).

(** The key of an output row, and the key a raw row will have once its
    code is cast and its date parsed. *)
Definition key (r : case) : Z * Z := (fips_code r, date r).

Definition raw_key (to_datetime : string -> option Z) (r : raw_case)
  : option Z * option Z :=
  (rc_fips_code r, to_datetime (rc_date r)).

Definition suffixes : list string :=
  [" county"; " municipality"; " city"; " borough"]%string.

(** The spec's reading of the suffix step: the first of the four tokens
    the string ends with is removed, and only that one. *)
Definition strip_single_suffix (s : string) : string :=
  let r := Str.rev s in
  match Str.strip_prefix (Str.rev " county"%string) r with
  | Some t => Str.rev t
  | None =>
      match Str.strip_prefix (Str.rev " municipality"%string) r with
      | Some t => Str.rev t
      | None =>
          match Str.strip_prefix (Str.rev " city"%string) r with
          | Some t => Str.rev t
          | None =>
              match Str.strip_prefix (Str.rev " borough"%string) r with
              | Some t => Str.rev t
              | None => s
              end
          end
      end
  end.

Definition is_assertion (e : error) : bool :=
  match e with
  | AssertionError _ => true
  | _ => false
  end.

(** The row with its [fips_code] cell blanked: what the FIPS loop leaves
    alone. *)
Definition clear_fips (r : raw_policy) : raw_policy :=
  mk_raw_policy (rp_index r) (rp_state_id r) (rp_county r) None
    (rp_policy_level r) (rp_date r) (rp_policy_type r) (rp_start_stop r).

(** What the spec calls the full location name of a policy row. *)
Definition full_location_of (r : raw_policy) : string :=
  (county_of r ++ ", " ++ rp_state_id r)%string.

(** Two worlds with the same downloads and the same content at [paths]. *)
Definition agree_on (paths : list string) (w w' : world) : Prop :=
  remote_cases w = remote_cases w' /\
  remote_policies w = remote_policies w' /\
  forall p, In p paths -> files w p = files w' p.

(** The columns of a cleaned row that the gap fill and the normalisation
    leave alone. *)
Definition static (r : case)
  : Z * Z * Z * string * string * string * Z * Z * Z * Q * Q :=
  (index r, date r, fips_code r, county r, state r, full_loc_name r,
   total_population r, new_cases r, new_deaths r, new_cases_1e6 r,
   new_deaths_1e6 r).

(** The three row filters of [clean_covid_data] as one test on a raw row. *)
Definition passes_filters (x : raw_case) : bool :=
  String.ltb (rc_date x) max_date
  && Str.mem (rc_location_type x) ["county"%string]
  && negb (Str.mem (rc_state x) ["Puerto Rico"; "District of Columbia"]%string).

(** What the casts of [clean_covid_data] need of the raw frame: a code in
    every in-horizon county row, territories included, and a date that
    parses and a population, given or overridden, in every row that is
    kept. *)
Definition castable (to_datetime : string -> option Z)
    (lower : string -> string) (raw : list raw_case)
  : Prop :=
  (forall x, In x (drop_non_county (restrict_date raw)) ->
             rc_fips_code x <> None) /\
  (forall x, In x (kept raw) ->
             to_datetime (rc_date x) <> None /\
             population (lower (rc_location_name x)) (rc_state x)
               (rc_total_population x) <> None).

(** One look-up in the synonym table: the value of the first entry whose
    key is [t], or [t] itself. *)
Definition lookup_synonym (t : string) : string :=
  match find (fun kv => String.eqb t (fst kv)) policy_replacements_dict with
  | Some kv => snd kv
  | None => t
  end.

(** [data.policy_level == "state"] *)
Definition is_state_level (r : raw_policy) : bool :=
  String.eqb (rp_policy_level r) "state".

(** What the FIPS loop makes of one row, given the rows it iterates
    over: the code of the last state-level row that carries its label. *)
Definition assigned (STATES_AND_TERRITORIES : list State)
    (lookup : string -> option State) (rows : list raw_policy)
    (r : raw_policy) : raw_policy :=
  match find (fun d => is_state_level d && (rp_index d =? rp_index r))
          (rev rows) with
  | Some d =>
      match state_fips STATES_AND_TERRITORIES lookup (rp_state_id d) with
      | Ok f => set_fips f r
      | Err _ => r
      end
  | None => r
  end.

(** The three row filters of [clean_policy_data] as one test on a raw row,
    given the first and the last date of the case table: a state of
    [us.states.STATES], a date that after the abbreviation replacement and
    the typo repair parses to a day in the range, and a policy type that
    after the replacement, the synonyms and the lower-casing is no phase
    placeholder. *)
Definition policy_row_kept (to_datetime : string -> option Z)
    (lower : string -> string)
    (STATES STATES_AND_TERRITORIES : list State) (lo hi : Z)
    (r : raw_policy) : bool :=
  let repl := replace_cell (mapping STATES_AND_TERRITORIES abbr name) in
  Str.mem (rp_state_id r) (map abbr STATES)
  && match to_datetime (fix_date (repl (rp_date r))) with
     | Some d => (lo <=? d) && (d <=? hi)
     | None => false
     end
  && negb (Str.mem (lower (rename_policy (repl (rp_policy_type r))))
             policies_drop).

(** A date string in the layout of the data sets, character by character. *)
Definition iso_layout (y1 y2 y3 y4 m1 m2 d1 d2 : ascii) : string :=
  String y1 (String y2 (String y3 (String y4 (String "-"
    (String m1 (String m2 (String "-" (String d1 (String d2 ""))))))))).

(** * Properties *)

(** ** Results and traversals *)

Lemma mapM_Forall2 {A B} (f : A -> result B) (l : list A) (l' : list B) :
  mapM f l = Ok l' -> Forall2 (fun x y => f x = Ok y) l l'.
Proof.
  revert l'; induction l as [|x xs IH]; simpl; intros l' H.
  - injection H as <-. constructor.
  - destruct (f x) as [y|e] eqn:Hx; [|discriminate].
    destruct (mapM f xs) as [ys|e]; [|discriminate].
    injection H as <-. constructor; auto.
Qed.

Lemma Forall2_map_eq {A B C} (f : A -> C) (g : B -> C) (R : A -> B -> Prop)
    (l : list A) (l' : list B) :
  (forall x y, R x y -> f x = g y) -> Forall2 R l l' -> map f l = map g l'.
Proof.
  intros HR; induction 1; simpl; [reflexivity|].
  f_equal; auto.
Qed.

Lemma Forall2_nth_error {A B} (R : A -> B -> Prop) (l : list A) (l' : list B) i x :
  Forall2 R l l' -> nth_error l i = Some x ->
  exists y, nth_error l' i = Some y /\ R x y.
Proof.
  intros H; revert i; induction H as [|a b l l' Hab _ IH]; intros [|i]; simpl;
    try discriminate.
  - intros [= <-]. eauto.
  - apply IH.
Qed.

(** ** Sums over an int64 column *)

Lemma wrap64_idemp_l (a b : Z) : wrap64 (wrap64 a + b) = wrap64 (a + b).
Proof.
  unfold wrap64. f_equal.
  replace ((a + 2 ^ 63) mod 2 ^ 64 - 2 ^ 63 + b + 2 ^ 63)
    with ((a + 2 ^ 63) mod 2 ^ 64 + b) by ring.
  rewrite Zplus_mod_idemp_l. f_equal. ring.
Qed.

Lemma wrap64_small (z : Z) : - 2 ^ 63 <= z < 2 ^ 63 -> wrap64 z = z.
Proof.
  intros H. unfold wrap64. rewrite Z.mod_small; lia.
Qed.

Lemma fold_add64 (xs : list Z) (a : Z) :
  fold_left add64 xs (wrap64 a) = wrap64 (a + fold_right Z.add 0 xs).
Proof.
  revert a. induction xs as [|y ys IH]; intros a; simpl.
  - now rewrite Z.add_0_r.
  - unfold add64 at 2. rewrite wrap64_idemp_l, IH. f_equal. ring.
Qed.

(** On values that are int64 values [np_sum] is the sum modulo 2^64, and
    the sum itself when that is an int64 value. *)
Lemma np_sum_int64 (l : list Z) :
  Forall (fun z => - 2 ^ 63 <= z < 2 ^ 63) l ->
  np_sum l = wrap64 (fold_right Z.add 0 l) /\
  (- 2 ^ 63 <= fold_right Z.add 0 l < 2 ^ 63 ->
   np_sum l = fold_right Z.add 0 l).
Proof.
  intros H.
  assert (E : np_sum l = wrap64 (fold_right Z.add 0 l)).
  { destruct l as [|x xs]; [reflexivity|].
    inversion H as [|? ? Hx _]; subst. simpl.
    rewrite <- (wrap64_small x Hx) at 1. apply fold_add64. }
  split; [exact E|]. intros B. rewrite E. now apply wrap64_small.
Qed.

(** ** Frames *)

Lemma NoDup_map_filter {A K} (k : A -> K) (f : A -> bool) (l : list A) :
  NoDup (map k l) -> NoDup (map k (filter f l)).
Proof.
  induction l as [|x xs IH]; simpl; intros H; auto.
  inversion H as [|? ? Hx Hxs]; subst.
  destruct (f x); simpl; auto.
  constructor; auto.
  intros Hc. apply Hx. apply in_map_iff in Hc. destruct Hc as (y & Hy & Hin).
  apply filter_In in Hin. rewrite <- Hy. apply in_map. tauto.
Qed.

Section FrameFacts.

Context {A : Type} (label : A -> Z).

Lemma drop_In (labels : list Z) (df : list A) r :
  In r (drop label labels df) <-> In r df /\ ~ In (label r) labels.
Proof.
  unfold drop. rewrite filter_In, negb_true_iff.
  split; intros [Hin Hl]; split; auto.
  - intros Hc. assert (existsb (Z.eqb (label r)) labels = true); [|congruence].
    apply existsb_exists. exists (label r). split; auto. apply Z.eqb_refl.
  - destruct (existsb (Z.eqb (label r)) labels) eqn:E; [|reflexivity].
    apply existsb_exists in E. destruct E as (l & Hl' & E).
    apply Z.eqb_eq in E. subst l. contradiction.
Qed.

(** A dropped frame keeps no row the condition holds of. *)
Lemma drop_where_In (cond : A -> bool) (df : list A) r :
  In r (drop_where label cond df) -> In r df /\ cond r = false.
Proof.
  unfold drop_where. rewrite drop_In. intros [Hin Hl]. split; auto.
  destruct (cond r) eqn:E; [|reflexivity].
  exfalso. apply Hl. apply in_map. apply filter_In. auto.
Qed.

Lemma unique_index_filter (f : A -> bool) (df : list A) :
  unique_index label df -> unique_index label (filter f df).
Proof. apply NoDup_map_filter. Qed.

Lemma unique_index_drop (labels : list Z) (df : list A) :
  unique_index label df -> unique_index label (drop label labels df).
Proof. apply unique_index_filter. Qed.

Lemma unique_index_inj (df : list A) r r' :
  unique_index label df -> In r df -> In r' df -> label r = label r' -> r = r'.
Proof.
  unfold unique_index. induction df as [|x xs IH]; simpl; [tauto|].
  intros H Hr Hr' E. inversion H as [|? ? Hx Hxs]; subst.
  destruct Hr as [<-|Hr], Hr' as [<-|Hr']; auto.
  - exfalso. apply Hx. rewrite E. now apply in_map.
  - exfalso. apply Hx. rewrite <- E. now apply in_map.
Qed.

(** With unique labels, dropping by label is dropping the rows themselves. *)
Lemma drop_where_unique (cond : A -> bool) (df : list A) :
  unique_index label df ->
  drop_where label cond df = filter (fun r => negb (cond r)) df.
Proof.
  intros U. unfold drop_where, drop. apply filter_ext_in. intros r Hr. f_equal.
  destruct (cond r) eqn:E.
  - apply existsb_exists. exists (label r). split; [|apply Z.eqb_refl].
    apply in_map, filter_In. auto.
  - destruct (existsb _ _) eqn:E'; [|reflexivity].
    apply existsb_exists in E'. destruct E' as (l & Hl & El).
    apply Z.eqb_eq in El. subst l.
    apply in_map_iff in Hl. destruct Hl as (r' & Hl & Hr').
    apply filter_In in Hr'. destruct Hr' as [Hr' Hc].
    assert (r' = r) by (eapply unique_index_inj; eauto). congruence.
Qed.

(** The row a label-keyed scan finds among the selected rows. *)
Lemma find_label (p : A -> bool) (df : list A) r :
  unique_index label df -> In r df ->
  find (fun d => label d =? label r) (rev (filter p df)) =
  if p r then Some r else None.
Proof.
  intros U Hr.
  destruct (find _ _) as [d|] eqn:F.
  - apply find_some in F. destruct F as [Hd E]. apply Z.eqb_eq in E.
    apply in_rev, filter_In in Hd. destruct Hd as [Hd Hp].
    assert (d = r) by (eapply unique_index_inj; eauto). subst d.
    now rewrite Hp.
  - destruct (p r) eqn:Hp; [|reflexivity].
    exfalso. eapply find_none with (x := r) in F.
    + rewrite Z.eqb_refl in F. discriminate.
    + apply -> in_rev. apply filter_In. auto.
Qed.

Lemma find_app_first (p : A -> bool) (l1 l2 : list A) :
  find p (l1 ++ l2) =
  match find p l1 with
  | Some x => Some x
  | None => find p l2
  end.
Proof.
  induction l1 as [|x xs IH]; simpl; [reflexivity|].
  destruct (p x); auto.
Qed.

Lemma range_index_unique (set : Z -> A -> A) (l : list A) :
  (forall i r, label (set i r) = i) ->
  unique_index label (range_index set l).
Proof.
  intros Hset. unfold unique_index, range_index.
  rewrite map_map.
  replace (map (fun ir => label (set (Z.of_nat (fst ir)) (snd ir)))
             (combine (seq 0 (List.length l)) l))
    with (map Z.of_nat (seq 0 (List.length l))).
  - apply Injective_map_NoDup; [|apply seq_NoDup].
    intros x y. apply Nat2Z.inj.
  - generalize 0%nat. induction l as [|x xs IH]; intros n; simpl; [reflexivity|].
    rewrite Hset. f_equal. apply IH.
Qed.

End FrameFacts.

(** ** The recomputation loop *)

Section Recalc.

(** The column the loop sums and the column it writes. *)
Variable count : case -> Z.
Variable set : option Q -> case -> case.

Hypothesis set_index : forall v r, index (set v r) = index r.
Hypothesis set_date : forall v r, date (set v r) = date r.
Hypothesis set_loc : forall v r, full_loc_name (set v r) = full_loc_name r.
Hypothesis set_count : forall v r, count (set v r) = count r.
Hypothesis set_set : forall v w r, set v (set w r) = set v r.

(** Two frames whose rows agree on location, date and the summed column
    have the same windows. *)
Lemma window_avg_ext (f : case -> case) (df : list case) data :
  (forall r, full_loc_name (f r) = full_loc_name r) ->
  (forall r, date (f r) = date r) ->
  (forall r, count (f r) = count r) ->
  window_avg count (map f df) data = window_avg count df data.
Proof.
  intros Hl Hd Hc. unfold window_avg.
  assert (E : map count (filter (in_window data) (map f df)) =
              map count (filter (in_window data) df)).
  { induction df as [|x xs IH]; [reflexivity|]. cbn [map filter].
    assert (W : in_window data (f x) = in_window data x)
      by (unfold in_window; now rewrite Hl, Hd).
    rewrite W. destruct (in_window data x); cbn [map]; rewrite ?Hc, IH;
      reflexivity. }
  now rewrite E.
Qed.

Lemma window_avg_loc_set (df : list case) l v data :
  window_avg count (loc_set index l (set v) df) data = window_avg count df data.
Proof.
  unfold loc_set. apply window_avg_ext; intros r; destruct (index r =? l); auto.
Qed.

(** The loop in closed form: a row takes the value computed for the last
    iterated row that carries its label, and is untouched when no
    iterated row does.  The windows are those of the frame the loop
    started from. *)
Lemma recalc_closed (nulls df : list case) :
  recalc count set nulls df =
  map (fun r =>
         match find (fun d => index d =? index r) (rev nulls) with
         | Some d => set (Some (window_avg count df d)) r
         | None => r
         end) df.
Proof.
  revert df. induction nulls as [|d ns IH]; intros df; simpl.
  - symmetry. apply map_id.
  - unfold recalc in *. simpl. rewrite IH. unfold loc_set. rewrite map_map.
    apply map_ext. intros r.
    fold (loc_set index (index d) (set (Some (window_avg count df d))) df).
    rewrite find_app_first. simpl.
    destruct (index r =? index d) eqn:E.
    + rewrite set_index.
      destruct (find _ (rev ns)) as [d'|].
      * now rewrite set_set, window_avg_loc_set.
      * apply Z.eqb_eq in E. rewrite E, Z.eqb_refl. reflexivity.
    + destruct (find _ (rev ns)) as [d'|].
      * now rewrite window_avg_loc_set.
      * rewrite Z.eqb_sym, E. reflexivity.
Qed.

(** With unique labels the loop over the rows selected by [p] rewrites
    exactly those rows, each with its own window. *)
Lemma recalc_unique (p : case -> bool) (f : case -> case) (df : list case) :
  unique_index index df ->
  (forall r, index (f r) = index r) ->
  (forall r, full_loc_name (f r) = full_loc_name r) ->
  (forall r, date (f r) = date r) ->
  (forall r, count (f r) = count r) ->
  recalc count set (filter p df) (map f df) =
  map (fun r => if p r then set (Some (window_avg count df r)) (f r) else f r) df.
Proof.
  intros U Hi Hl Hd Hc. rewrite recalc_closed, map_map.
  apply map_ext_in. intros r Hr.
  rewrite Hi, (find_label index p df r U Hr).
  destruct (p r); [|reflexivity].
  now rewrite window_avg_ext.
Qed.

End Recalc.

Lemma fill_7day_unique (df : list case) :
  unique_index index df ->
  fill_7day df = map (fun r => fill_row (map fill_seed df) (fill_seed r)) df.
Proof.
  intros U. unfold fill_7day, nulls_case7day, nulls_death7day.
  assert (Um : unique_index index (map fill_seed df)).
  { unfold unique_index in *. rewrite map_map.
    erewrite map_ext; [exact U|]. intros r. unfold fill_seed.
    destruct (date r <? seed_cutoff); reflexivity. }
  set (dm := map fill_seed df) in *.
  rewrite <- (map_id dm) at 3.
  rewrite (recalc_unique new_cases set_new_cases_7day) by auto.
  rewrite (recalc_unique new_deaths set_new_deaths_7day) by
    (auto; intros r; destruct (isnull (new_cases_7day r)); reflexivity).
  subst dm. rewrite map_map. apply map_ext. intros r.
  unfold fill_row. destruct (isnull (new_cases_7day (fill_seed r))); reflexivity.
Qed.

(** ** The case/death pipeline *)

Lemma trailing_window_In (df : list case) (r x : case) :
  In x (trailing_window df r) <->
  In x df /\ full_loc_name x = full_loc_name r /\ date r - 7 < date x <= date r.
Proof.
  unfold trailing_window. rewrite filter_In, !andb_true_iff.
  rewrite String.eqb_eq, Z.ltb_lt, Z.leb_le. tauto.
Qed.

Lemma window_avg_trailing (count : case -> Z) (df : list case) (r : case) :
  window_avg count df r =
  (inject_Z (np_sum (map count (trailing_window df r))) / 7)%Q.
Proof.
  unfold window_avg, trailing_window, in_window, days_7.
  erewrite filter_ext; [reflexivity|]. intros x. simpl.
  destruct (String.eqb _ _), (date x <=? date r), (date r - 7 <? date x);
    reflexivity.
Qed.

Lemma window_avg_data (count : case -> Z) (df : list case) (a b : case) :
  full_loc_name a = full_loc_name b -> date a = date b ->
  window_avg count df a = window_avg count df b.
Proof.
  intros Hl Hd. unfold window_avg, in_window. now rewrite Hl, Hd.
Qed.

Lemma fill_seed_keys (r : case) :
  index (fill_seed r) = index r /\ date (fill_seed r) = date r /\
  full_loc_name (fill_seed r) = full_loc_name r /\
  fips_code (fill_seed r) = fips_code r /\
  new_cases (fill_seed r) = new_cases r /\ new_deaths (fill_seed r) = new_deaths r.
Proof. unfold fill_seed. destruct (date r <? seed_cutoff); simpl; tauto. Qed.

Lemma fill_row_keys (df : list case) (r : case) :
  index (fill_row df r) = index r /\ date (fill_row df r) = date r /\
  full_loc_name (fill_row df r) = full_loc_name r /\
  fips_code (fill_row df r) = fips_code r /\
  new_cases (fill_row df r) = new_cases r /\ new_deaths (fill_row df r) = new_deaths r.
Proof.
  unfold fill_row.
  destruct (isnull (new_cases_7day r)), (isnull (new_deaths_7day r)); simpl; tauto.
Qed.

Lemma clean_row_keys (df : list case) (r : case) :
  index (clean_row df r) = index r /\ date (clean_row df r) = date r /\
  full_loc_name (clean_row df r) = full_loc_name r /\
  fips_code (clean_row df r) = fips_code r /\
  new_cases (clean_row df r) = new_cases r /\ new_deaths (clean_row df r) = new_deaths r.
Proof.
  unfold clean_row. simpl.
  destruct (fill_row_keys (map fill_seed df) (fill_seed r)) as (-> & -> & -> & -> & -> & ->).
  apply fill_seed_keys.
Qed.

Section CovidFacts.

Variable to_datetime : string -> option Z.
Variable lower : string -> string.

Lemma type_row_fields (x : raw_case) (y : case) :
  type_row to_datetime lower x = Ok y ->
  index y = rc_index x /\
  rc_fips_code x = Some (fips_code y) /\
  to_datetime (rc_date x) = Some (date y) /\
  new_cases_7day y = rc_new_cases_7_day_rolling_avg x /\
  new_deaths_7day y = rc_new_deaths_7_day_rolling_avg x.
Proof.
  unfold type_row.
  destruct (rc_fips_code x); [|discriminate].
  destruct (to_datetime (rc_date x)); [|discriminate].
  destruct (population _ _ _); [|discriminate].
  intros [= <-]. simpl. tauto.
Qed.

Lemma prepare_rows (raw : list raw_case) (df : list case) :
  prepare to_datetime lower raw = Ok df ->
  Forall2 (fun x y => type_row to_datetime lower x = Ok y) (kept raw) df.
Proof.
  unfold prepare, cast_fips, kept.
  destruct (forallb _ _); simpl; [|discriminate].
  apply mapM_Forall2.
Qed.

Lemma kept_unique (raw : list raw_case) :
  unique_index rc_index raw -> unique_index rc_index (kept raw).
Proof.
  intros U. unfold kept, drop_territories, drop_non_county, drop_where.
  do 2 apply unique_index_drop. now apply unique_index_filter.
Qed.

Lemma prepare_unique (raw : list raw_case) (df : list case) :
  unique_index rc_index raw -> prepare to_datetime lower raw = Ok df ->
  unique_index index df.
Proof.
  intros U H. apply prepare_rows in H. unfold unique_index.
  erewrite <- Forall2_map_eq; [apply kept_unique, U| |exact H].
  simpl. intros x y Hxy. apply type_row_fields in Hxy. symmetry. tauto.
Qed.

(** With unique labels the pipeline is a row-by-row map of the prepared
    frame. *)
Lemma clean_covid_df_unique (raw : list raw_case) (df : list case) :
  unique_index rc_index raw -> prepare to_datetime lower raw = Ok df ->
  clean_covid_df to_datetime lower raw = Ok (map (clean_row df) df).
Proof.
  intros U H. unfold clean_covid_df. rewrite H. simpl.
  rewrite fill_7day_unique by (eapply prepare_unique; eauto).
  now rewrite map_map.
Qed.

End CovidFacts.

Lemma clean_row_seeded (df : list case) (r : case) :
  date r < seed_cutoff ->
  new_cases_7day (clean_row df r) = Some (fillna 0%Q (new_cases_7day r)) /\
  new_deaths_7day (clean_row df r) = Some (fillna 0%Q (new_deaths_7day r)).
Proof.
  intros H. apply Z.ltb_lt in H. unfold clean_row, fill_row, fill_seed.
  rewrite H. simpl. tauto.
Qed.

Lemma clean_row_recomputed (df : list case) (r : case) :
  seed_cutoff <= date r ->
  (new_cases_7day r = None ->
   new_cases_7day (clean_row df r) =
   Some (window_avg new_cases (map fill_seed df) r)) /\
  (new_deaths_7day r = None ->
   new_deaths_7day (clean_row df r) =
   Some (window_avg new_deaths (map fill_seed df) r)).
Proof.
  intros H. apply Z.ltb_ge in H. unfold clean_row, fill_row, fill_seed.
  rewrite H. split; intros E; rewrite E; simpl.
  - destruct (isnull (new_deaths_7day r)); reflexivity.
  - reflexivity.
Qed.

Lemma window_avg_clean (count : case -> Z) (df : list case) (f : case -> case) r :
  (forall x, full_loc_name (f x) = full_loc_name x) ->
  (forall x, date (f x) = date x) ->
  (forall x, count (f x) = count x) ->
  (forall x, count (fill_seed x) = count x) ->
  window_avg count (map fill_seed df) r = window_avg count (map f df) (f r).
Proof.
  intros Hl Hd Hc Hs.
  rewrite (window_avg_data count _ (f r) r) by auto.
  rewrite !window_avg_ext; auto; intros x; apply fill_seed_keys.
Qed.

(** No row either loop iterates over lies before the seed cutoff. *)
Lemma nulls_after_cutoff (df : list case) (d : case) :
  In d (nulls_case7day (map fill_seed df)) \/
  In d (nulls_death7day (map fill_seed df)) ->
  seed_cutoff <= date d.
Proof.
  unfold nulls_case7day, nulls_death7day. rewrite !filter_In, !in_map_iff.
  intros [[(r & <- & _) H]|[(r & <- & _) H]]; revert H; unfold fill_seed;
    destruct (date r <? seed_cutoff) eqn:E; simpl; try discriminate;
    intros _; now apply Z.ltb_ge.
Qed.



Ltac unique_labels :=
  unfold unique_index; simpl;
  repeat (constructor; [simpl; intuition discriminate|]); constructor.


(** The spec's test: ten days of one county with the average missing on
    the eighth give the mean of days 2 to 8. *)
Example rolling_average_day8 :
  match clean_covid_df Date.iso_to_datetime Str.lower Sample.ten_days with
  | Ok out => option_map new_cases_7day (nth_error out 7)
  | Err _ => None
  end = Some (Some (inject_Z (20 + 30 + 40 + 50 + 60 + 70 + 80) / 7)%Q).
Proof. vm_compute. reflexivity. Qed.


(** The frames the pipeline loads itself have unique labels. *)
Lemma download_cases_unique (w w' : world) (df : list raw_case) :
  download_cases w = (Ok df, w') -> unique_index rc_index df.
Proof.
  unfold download_cases. destruct (remote_cases w); intros [= <- _].
  now apply range_index_unique.
Qed.

(** Why the labels must be unique: [df.loc[index, col] = v] writes every
    row that carries the label, so of two rows labelled alike both end up
    with the value computed for the one iterated last. *)
Example shared_label_shares_writes :
  match clean_covid_df Date.iso_to_datetime Str.lower Sample.shared_label with
  | Ok out => map (fun r => (full_loc_name r, new_cases_7day r)) out
  | Err _ => []
  end =
  [ ("orange, California"%string, Some (inject_Z 7000 / 7)%Q);
    ("kern, California"%string, Some (inject_Z 7000 / 7)%Q) ].
Proof. vm_compute. reflexivity. Qed.



(** What the two rows of that frame leave the pipeline with. *)
Example seed_row_overwritten :
  match clean_covid_df Date.iso_to_datetime Str.lower Sample.seed_shares_label with
  | Ok out => map (fun r => (new_cases_7day r, new_deaths_7day r)) out
  | Err _ => []
  end =
  [ (Some (inject_Z 7000 / 7)%Q, Some (inject_Z 14 / 7)%Q);
    (Some (inject_Z 7000 / 7)%Q, Some (inject_Z 14 / 7)%Q) ].
Proof. vm_compute. reflexivity. Qed.

(** The sum of a window is an int64 sum: two counts of 2^62 add up to
    -2^63. *)
Example int64_sum_wraps : np_sum [2 ^ 62; 2 ^ 62] = - 2 ^ 63.
Proof. vm_compute. reflexivity. Qed.

(** ** Uniqueness of (fips_code, date) *)

Lemma recalc_keys {K} (k : case -> K) (count : case -> Z)
    (set : option Q -> case -> case) (nulls df : list case) :
  (forall v r, k (set v r) = k r) ->
  map k (recalc count set nulls df) = map k df.
Proof.
  intros Hk. unfold recalc. revert df.
  induction nulls as [|d ns IH]; intros df; simpl; [reflexivity|].
  rewrite IH. unfold loc_set. rewrite map_map. apply map_ext.
  intros r. destruct (index r =? index d); auto.
Qed.

Lemma clean_covid_df_keys {K} (k : case -> K) (to_datetime : string -> option Z)
    (lower : string -> string)
    (raw : list raw_case) (df out : list case) :
  (forall v r, k (set_new_cases_7day v r) = k r) ->
  (forall v r, k (set_new_deaths_7day v r) = k r) ->
  (forall r, k (normalize r) = k r) ->
  prepare to_datetime lower raw = Ok df ->
  clean_covid_df to_datetime lower raw = Ok out ->
  map k out = map k df.
Proof.
  intros Hc Hd Hn P. unfold clean_covid_df. rewrite P. simpl. intros [= <-].
  rewrite map_map. erewrite map_ext by (intros; apply Hn).
  unfold fill_7day. rewrite !recalc_keys by assumption.
  rewrite map_map. apply map_ext. intros r. unfold fill_seed.
  destruct (date r <? seed_cutoff); [|reflexivity]. now rewrite Hd, Hc.
Qed.

Lemma clean_covid_df_prepared (to_datetime : string -> option Z)
    (lower : string -> string)
    (raw : list raw_case) (out : list case) :
  clean_covid_df to_datetime lower raw = Ok out ->
  exists df, prepare to_datetime lower raw = Ok df.
Proof.
  unfold clean_covid_df. destruct (prepare to_datetime lower raw) as [df|e]; simpl;
    [eauto|discriminate].
Qed.

(** A feed that reports one county-day twice, under two labels, comes out
    with two rows of the same (fips_code, date). *)
Lemma C5_counterexample :
  unique_index rc_index Sample.reported_twice /\
  ~ (forall out,
       clean_covid_df Date.iso_to_datetime Str.lower Sample.reported_twice = Ok out ->
       NoDup (map key out)).
Proof.
  split; [unique_labels|].
  intros H.
  specialize (H _ eq_refl). vm_compute in H.
  inversion H as [|? ? Hin _]. apply Hin. left. reflexivity.
Qed.

(** C5, amended.  [clean_covid_data] removes no duplicate: its output has
    one row for each raw row that survives the row filters, in the same
    order, with that row's code and parsed date.  So no two output rows
    share (fips_code, date) whenever no two raw rows do. *)
Theorem fips_date_unique_preserved (to_datetime : string -> option Z)
    (lower : string -> string)
    (raw : list raw_case) (out : list case) :
  clean_covid_df to_datetime lower raw = Ok out ->
  Forall2 (fun x y => raw_key to_datetime x = (Some (fips_code y), Some (date y)))
    (kept raw) out /\
  (NoDup (map (raw_key to_datetime) raw) -> NoDup (map key out)).
Proof.
  intros H. destruct (clean_covid_df_prepared _ _ _ _ H) as [df P].
  assert (K : map key out = map key df)
    by (eapply clean_covid_df_keys; eauto; reflexivity).
  assert (F : Forall2 (fun x y => raw_key to_datetime x =
                                  (Some (fips_code y), Some (date y)))
                (kept raw) df).
  { eapply Forall2_impl; [|apply prepare_rows, P].
    intros x y Hxy. apply type_row_fields in Hxy.
    destruct Hxy as (_ & Hf & Hd & _). unfold raw_key. now rewrite Hf, Hd. }
  assert (F' : Forall2 (fun x y => raw_key to_datetime x =
                                   (Some (fst y), Some (snd y)))
                 (kept raw) (map key out)).
  { rewrite K. clear -F. induction F; simpl; constructor; auto. }
  split.
  - clear -F'. remember (map key out) as ks eqn:E. revert out E.
    induction F' as [|x k xs ks Hx _ IH]; intros [|y ys] E; try discriminate;
      constructor.
    + injection E as -> _. exact Hx.
    + injection E as _ E. now apply IH.
  - intros N.
    assert (N' : NoDup (map (raw_key to_datetime) (kept raw))).
    { unfold kept, drop_territories, drop_non_county, drop_where, drop, restrict_date.
      now do 3 apply NoDup_map_filter. }
    assert (E : map (raw_key to_datetime) (kept raw) =
                map (fun k => (Some (fst k), Some (snd k))) (map key out)).
    { clear -F'. induction F'; simpl; f_equal; auto. }
    rewrite E in N'. eapply NoDup_map_inv. exact N'.
Qed.

Lemma fips_date_unique_preserved_witness :
  exists out,
    clean_covid_df Date.iso_to_datetime Str.lower Sample.two_counties = Ok out /\
    NoDup (map key out).
Proof.
  eexists. split; [vm_compute; reflexivity|].
  apply (fips_date_unique_preserved Date.iso_to_datetime Str.lower Sample.two_counties).
  - vm_compute. reflexivity.
  - vm_compute. repeat (constructor; [simpl; intuition discriminate|]). constructor.
Defined.

(** ** Strings *)

Module StrFacts.

Local Open Scope string_scope.

Lemma append_nil_r (s : string) : s ++ "" = s.
Proof. induction s; simpl; congruence. Qed.

Lemma append_assoc (a b c : string) : (a ++ b) ++ c = a ++ (b ++ c).
Proof. induction a; simpl; congruence. Qed.

Lemma rev_onto_app (s acc : string) : Str.rev_onto s acc = Str.rev s ++ acc.
Proof.
  unfold Str.rev. revert acc. induction s as [|c s IH]; intros acc; simpl.
  - reflexivity.
  - rewrite IH, (IH (String c "")), append_assoc. reflexivity.
Qed.

Lemma rev_cons (c : ascii) (s : string) :
  Str.rev (String c s) = Str.rev s ++ String c "".
Proof. unfold Str.rev at 1. simpl. apply rev_onto_app. Qed.

Lemma rev_app (a b : string) : Str.rev (a ++ b) = Str.rev b ++ Str.rev a.
Proof.
  induction a as [|c a IH]; simpl.
  - now rewrite append_nil_r.
  - now rewrite !rev_cons, IH, append_assoc.
Qed.

Lemma rev_involutive (s : string) : Str.rev (Str.rev s) = s.
Proof.
  induction s as [|c s IH]; [reflexivity|].
  now rewrite rev_cons, rev_app, IH.
Qed.

Lemma strip_prefix_app (p t : string) : Str.strip_prefix p (p ++ t) = Some t.
Proof.
  induction p as [|c p IH]; simpl.
  - now destruct t.
  - now rewrite Ascii.eqb_refl.
Qed.

Lemma strip_prefix_Some (p s t : string) :
  Str.strip_prefix p s = Some t -> s = p ++ t.
Proof.
  revert s. induction p as [|c p IH]; intros s; simpl.
  - destruct s; intros [= <-]; reflexivity.
  - destruct s as [|d s]; [discriminate|].
    destruct (Ascii.eqb c d) eqn:E; [|discriminate].
    apply Ascii.eqb_eq in E. subst d. intros H. f_equal. auto.
Qed.

Lemma sub_at_end_app (pat b : string) : Str.sub_at_end pat (b ++ pat) = b.
Proof.
  unfold Str.sub_at_end. now rewrite rev_app, strip_prefix_app, rev_involutive.
Qed.

Lemma sub_at_end_no_match (pat s : string) :
  ~ Str.matches_at_end pat s -> Str.sub_at_end pat s = s.
Proof.
  intros N. unfold Str.sub_at_end.
  destruct (Str.strip_prefix (Str.rev pat) (Str.rev s)) as [t|] eqn:E.
  - exfalso. apply N. left. exists (Str.rev t).
    apply strip_prefix_Some in E.
    assert (Hs := rev_involutive s). rewrite E in Hs. rewrite <- Hs.
    now rewrite rev_app, rev_involutive.
  - destruct (Str.rev s) as [|c r'] eqn:R; [reflexivity|].
    destruct (Ascii.eqb c Str.newline) eqn:C; [|reflexivity].
    destruct (Str.strip_prefix (Str.rev pat) r') as [t|] eqn:E'; [|reflexivity].
    exfalso. apply N. right. exists (Str.rev t).
    apply Ascii.eqb_eq in C. subst c. apply strip_prefix_Some in E'.
    assert (Hs := rev_involutive s). rewrite R, E' in Hs. rewrite <- Hs.
    now rewrite rev_cons, rev_app, rev_involutive, append_assoc.
Qed.

Lemma mem_In (x : string) (l : list string) : Str.mem x l = true <-> In x l.
Proof.
  unfold Str.mem. rewrite existsb_exists. split.
  - intros (y & Hy & E). apply String.eqb_eq in E. now subst.
  - intros H. exists x. split; auto. apply String.eqb_refl.
Qed.

Lemma mem_not_In (x : string) (l : list string) :
  Str.mem x l = false <-> ~ In x l.
Proof.
  rewrite <- mem_In. destruct (Str.mem x l); split; intros; congruence.
Qed.

End StrFacts.

(** ** County names *)

Section County.

Import StrFacts.
Local Open Scope string_scope.

(** James City County loses two tokens, not one. *)
Lemma C8_counterexample :
  normalize_county Str.lower (Some "James City County") = "james" /\
  strip_single_suffix (Str.lower "James City County") = "james city" /\
  normalize_county Str.lower (Some "James City County")
  <> strip_single_suffix (Str.lower "James City County").
Proof. vm_compute. repeat split. discriminate. Qed.

Ltac no_match b :=
  unfold Str.sub_at_end; rewrite rev_app;
  let r := fresh "r" in
  generalize (Str.rev b); intros r; reflexivity.

Lemma strip_suffixes_borough (b : string) :
  strip_suffixes (b ++ " borough") = b.
Proof.
  unfold strip_suffixes.
  replace (Str.sub_at_end " county" (b ++ " borough")) with (b ++ " borough")
    by (symmetry; no_match b).
  replace (Str.sub_at_end " municipality" (b ++ " borough")) with (b ++ " borough")
    by (symmetry; no_match b).
  replace (Str.sub_at_end " city" (b ++ " borough")) with (b ++ " borough")
    by (symmetry; no_match b).
  apply sub_at_end_app.
Qed.

Lemma strip_suffixes_city (b : string) :
  strip_suffixes (b ++ " city") = Str.sub_at_end " borough" b.
Proof.
  unfold strip_suffixes.
  replace (Str.sub_at_end " county" (b ++ " city")) with (b ++ " city")
    by (symmetry; no_match b).
  replace (Str.sub_at_end " municipality" (b ++ " city")) with (b ++ " city")
    by (symmetry; no_match b).
  now rewrite sub_at_end_app.
Qed.

Lemma strip_suffixes_municipality (b : string) :
  strip_suffixes (b ++ " municipality") =
  Str.sub_at_end " borough" (Str.sub_at_end " city" b).
Proof.
  unfold strip_suffixes.
  replace (Str.sub_at_end " county" (b ++ " municipality"))
    with (b ++ " municipality") by (symmetry; no_match b).
  now rewrite sub_at_end_app.
Qed.

Lemma strip_suffixes_county (b : string) :
  strip_suffixes (b ++ " county") =
  Str.sub_at_end " borough"
    (Str.sub_at_end " city" (Str.sub_at_end " municipality" b)).
Proof. unfold strip_suffixes. now rewrite sub_at_end_app. Qed.

Lemma strip_suffixes_none (s : string) :
  (forall suf, In suf suffixes -> ~ Str.matches_at_end suf s) ->
  strip_suffixes s = s.
Proof.
  intros N. unfold strip_suffixes.
  rewrite (sub_at_end_no_match " county" s) by (apply N; simpl; auto).
  rewrite (sub_at_end_no_match " municipality" s) by (apply N; simpl; auto).
  rewrite (sub_at_end_no_match " city" s) by (apply N; simpl; auto).
  apply sub_at_end_no_match, N; simpl; auto.
Qed.

End County.

(** C8, amended.  After lower-casing, the four patterns are applied one
    after the other, in the order [" county"], [" municipality"],
    [" city"], [" borough"]; each removes its token from the end of the
    string it is given.  So a string that ends in [" borough"] loses that
    token only, one that ends in [" city"] may lose a [" borough"] behind
    it as well, and so on down the order; the three names of the spec
    normalise as it says, [str.lower] being on ASCII texts what
    [Str.lower] is; and a string that, lower-cased, matches none of the
    four patterns is lower-cased and otherwise unchanged. *)
Theorem county_suffixes_stripped_in_turn (lower : string -> string) :
  (forall s, Str.is_ascii s = true -> lower s = Str.lower s) ->
  normalize_county lower (Some "Orange County"%string) = "orange"%string /\
  normalize_county lower (Some "Juneau Borough"%string) = "juneau"%string /\
  normalize_county lower (Some "Honolulu city"%string) = "honolulu"%string /\
  (forall b, strip_suffixes (b ++ " borough") = b)%string /\
  (forall b, strip_suffixes (b ++ " city") = Str.sub_at_end " borough" b)%string /\
  (forall b, strip_suffixes (b ++ " municipality") =
             Str.sub_at_end " borough" (Str.sub_at_end " city" b))%string /\
  (forall b, strip_suffixes (b ++ " county") =
             Str.sub_at_end " borough"
               (Str.sub_at_end " city" (Str.sub_at_end " municipality" b)))%string /\
  (forall c,
     (forall suf, In suf suffixes ->
                  ~ Str.matches_at_end suf (lower (fillna "statewide"%string c))) ->
     normalize_county lower c = lower (fillna "statewide"%string c)).
Proof.
  intros A.
  assert (N : forall s,
             Str.is_ascii s = true ->
             normalize_county lower (Some s) = strip_suffixes (Str.lower s))
    by (intros s Hs; unfold normalize_county; simpl; now rewrite A).
  split; [now rewrite N|]. split; [now rewrite N|]. split; [now rewrite N|].
  split; [exact strip_suffixes_borough|].
  split; [exact strip_suffixes_city|].
  split; [exact strip_suffixes_municipality|].
  split; [exact strip_suffixes_county|].
  intros c Hn. unfold normalize_county. now apply strip_suffixes_none.
Qed.

Lemma endswith_strip (suf s : string) :
  Str.endswith suf s ->
  Str.strip_prefix (Str.rev suf) (Str.rev s) <> None.
Proof.
  intros [p ->]. now rewrite StrFacts.rev_app, StrFacts.strip_prefix_app.
Qed.

Lemma county_suffixes_stripped_in_turn_witness :
  normalize_county Str.lower (Some "Dona Ana"%string) = "dona ana"%string.
Proof.
  destruct (county_suffixes_stripped_in_turn Str.lower (fun s _ => eq_refl))
    as (_ & _ & _ & _ & _ & _ & _ & H).
  apply (H (Some "Dona Ana"%string)).
  intros suf [<-|[<-|[<-|[<-|[]]]]] [E|E];
    apply endswith_strip in E; apply E; reflexivity.
Defined.

(** ** The policy pipeline *)

Lemma unique_In (x : string) (l : list string) : In x (unique l) <-> In x l.
Proof.
  induction l as [|y ys IH]; simpl; [tauto|].
  rewrite filter_In, IH, negb_true_iff, String.eqb_neq.
  destruct (String.eqb_spec x y); subst; intuition.
Qed.

Lemma unique_NoDup (l : list string) : NoDup (unique l).
Proof.
  induction l as [|x xs IH]; simpl; constructor.
  - rewrite filter_In, negb_true_iff, String.eqb_neq. tauto.
  - now apply NoDup_filter.
Qed.

Lemma Forall2_In_r {A B} (R : A -> B -> Prop) (l : list A) (l' : list B) y :
  Forall2 R l l' -> In y l' -> exists x, In x l /\ R x y.
Proof.
  induction 1 as [|a b l l' Hab _ IH]; simpl; [tauto|].
  intros [<-|Hy]; [eauto|]. destruct (IH Hy) as (x & Hx & HR). eauto.
Qed.

Lemma fold_min_spec (xs : list Z) (x : Z) :
  In (fold_left Z.min xs x) (x :: xs) /\
  forall y, In y (x :: xs) -> fold_left Z.min xs x <= y.
Proof.
  revert x. induction xs as [|a xs IH]; intros x; simpl.
  - split; [auto|]. intros y [<-|[]]. lia.
  - destruct (IH (Z.min x a)) as [Hin Hle]. split.
    + destruct Hin as [E|Hin]; [|auto].
      rewrite <- E. destruct (Z.min_spec x a) as [[_ ->]|[_ ->]]; auto.
    + intros y Hy.
      assert (fold_left Z.min xs (Z.min x a) <= Z.min x a) by (apply Hle; simpl; auto).
      destruct Hy as [<-|[<-|Hy]]; [lia|lia|]. apply Hle. simpl. auto.
Qed.

Lemma fold_max_spec (xs : list Z) (x : Z) :
  In (fold_left Z.max xs x) (x :: xs) /\
  forall y, In y (x :: xs) -> y <= fold_left Z.max xs x.
Proof.
  revert x. induction xs as [|a xs IH]; intros x; simpl.
  - split; [auto|]. intros y [<-|[]]. lia.
  - destruct (IH (Z.max x a)) as [Hin Hle]. split.
    + destruct Hin as [E|Hin]; [|auto].
      rewrite <- E. destruct (Z.max_spec x a) as [[_ ->]|[_ ->]]; auto.
    + intros y Hy.
      assert (Z.max x a <= fold_left Z.max xs (Z.max x a)) by (apply Hle; simpl; auto).
      destruct Hy as [<-|[<-|Hy]]; [lia|lia|]. apply Hle. simpl. auto.
Qed.

Lemma series_min_spec (l : list Z) (lo : Z) :
  series_min l = Ok lo -> In lo l /\ forall y, In y l -> lo <= y.
Proof.
  destruct l as [|x xs]; simpl; [discriminate|]. intros [= <-].
  apply fold_min_spec.
Qed.

Lemma series_max_spec (l : list Z) (hi : Z) :
  series_max l = Ok hi -> In hi l /\ forall y, In y l -> y <= hi.
Proof.
  destruct l as [|x xs]; simpl; [discriminate|]. intros [= <-].
  apply fold_max_spec.
Qed.

Lemma dict_get_Some (k v : string) (d : list (string * string)) :
  dict_get k d = Some v -> In (k, v) d.
Proof.
  induction d as [|[k' v'] d IH]; simpl; [discriminate|].
  destruct (dict_get k d) as [w|].
  - intros [= <-]. auto.
  - destruct (String.eqb_spec k k'); [|discriminate].
    intros [= <-]. subst. auto.
Qed.

Lemma dict_get_None (k : string) (d : list (string * string)) :
  dict_get k d = None <-> forall v, ~ In (k, v) d.
Proof.
  induction d as [|[k' v'] d IH]; simpl.
  - split; auto.
  - destruct (dict_get k d) as [w|] eqn:G.
    + split; [discriminate|]. intros H. exfalso.
      apply (H w). right. now apply dict_get_Some.
    + destruct (String.eqb_spec k k') as [->|N].
      * split; [discriminate|]. intros H. exfalso. apply (H v'). auto.
      * split; [|reflexivity]. intros _ v [[= E _]|Hin]; [congruence|].
        revert Hin. now apply IH.
Qed.

Section PolicyFacts.

Variable to_datetime : string -> option Z.
Variable lower : string -> string.
Variable STATES : list State.
Variable STATES_AND_TERRITORIES : list State.
Variable lookup : string -> option State.

Local Abbreviation normalized := (normalized lower STATES STATES_AND_TERRITORIES).
Local Abbreviation clean_policy_df :=
  (clean_policy_df to_datetime lower STATES STATES_AND_TERRITORIES lookup).
Local Abbreviation repl := (replace_cell (mapping STATES_AND_TERRITORIES abbr name)).

(** The reconciliation list holds exactly the non-statewide counties of
    the frame that no row of the time series carries. *)
Lemma mismatches_In (ts : list case) (df : list raw_policy) (c : string) :
  In c (mismatches ts df) <->
  (exists r, In r df /\ county_of r = c) /\
  c <> "statewide"%string /\ ~ In c (map county ts).
Proof.
  unfold mismatches, county_column.
  rewrite filter_In, unique_In, filter_In, in_map_iff, !negb_true_iff.
  rewrite StrFacts.mem_not_In, unique_In, String.eqb_neq.
  split.
  - intros [[(r & E & Hr) Hs] N]. eauto.
  - intros [(r & Hr & E) [Hs N]]. eauto.
Qed.

Lemma mismatches_nil (ts : list case) (df : list raw_policy) :
  mismatches ts df = [] <->
  forall r, In r df -> county_of r <> "statewide"%string ->
            In (county_of r) (map county ts).
Proof.
  split.
  - intros E r Hr Hs.
    destruct (in_dec string_dec (county_of r) (map county ts)) as [|N]; auto.
    exfalso. assert (H : In (county_of r) (mismatches ts df))
      by (apply mismatches_In; eauto).
    now rewrite E in H.
  - intros H. destruct (mismatches ts df) as [|c m] eqn:E; [reflexivity|].
    exfalso. assert (Hc : In c (mismatches ts df)) by (rewrite E; simpl; auto).
    apply mismatches_In in Hc. destruct Hc as ((r & Hr & <-) & Hs & N). auto.
Qed.

Lemma state_fips_error (s : string) (e : error) :
  state_fips STATES_AND_TERRITORIES lookup s = Err e -> is_assertion e = false.
Proof.
  unfold state_fips. destruct (dict_get _ _); [|now intros [= <-]].
  destruct (lookup _); [discriminate|now intros [= <-]].
Qed.

Lemma assign_fips_error (rows df : list raw_policy) (e : error) :
  assign_fips STATES_AND_TERRITORIES lookup rows df = Err e ->
  is_assertion e = false.
Proof.
  revert df. induction rows as [|d rows IH]; intros df; simpl; [discriminate|].
  destruct (String.eqb _ _); [|apply IH].
  destruct (state_fips _ _ _) eqn:F; [apply IH|].
  intros [= <-]. eapply state_fips_error; eauto.
Qed.

Lemma mapM_error {A B} (f : A -> result B) (l : list A) (e : error) :
  mapM f l = Err e -> exists x, In x l /\ f x = Err e.
Proof.
  induction l as [|x xs IH]; simpl; [discriminate|].
  destruct (f x) eqn:Fx.
  - destruct (mapM f xs); [discriminate|].
    intros [= <-]. destruct IH as (y & Hy & E); eauto.
  - intros [= <-]. eauto.
Qed.

Lemma type_policy_error (r : raw_policy) (e : error) :
  type_policy to_datetime r = Err e -> is_assertion e = false.
Proof.
  unfold type_policy. destruct (rp_fips_code r); [|now intros [= <-]].
  destruct (to_datetime _); [discriminate|now intros [= <-]].
Qed.

(** The assertion is the only place an [AssertionError] comes from, and
    it carries the whole reconciliation list. *)
Lemma clean_policy_df_mismatch (ts : list case) (df : list raw_policy) :
  mismatches ts (normalized df) <> [] ->
  clean_policy_df ts df = Err (AssertionError (mismatches ts (normalized df))).
Proof.
  unfold clean_policy_df.
  destruct (mismatches ts (normalized df)) as [|c m]; [congruence|reflexivity].
Qed.

Lemma clean_policy_df_no_assert (ts : list case) (df : list raw_policy) (e : error) :
  mismatches ts (normalized df) = [] ->
  clean_policy_df ts df = Err e -> is_assertion e = false.
Proof.
  unfold clean_policy_df. intros ->.
  destruct (assign_fips _ _ _ _) as [df1|e1] eqn:H1; simpl;
    [|intros [= <-]; eapply assign_fips_error; eauto].
  unfold cast_policy_fips. destruct (forallb _ df1); simpl; [|now intros [= <-]].
  destruct (mapM _ _) as [df2|e2] eqn:H2; simpl.
  - destruct (series_min _) eqn:H3; simpl;
      [|destruct (map date ts); [injection H3 as <-; now intros [= <-]|discriminate]].
    destruct (series_max _) eqn:H4; simpl; [discriminate|].
    destruct (map date ts); [injection H4 as <-; now intros [= <-]|discriminate].
  - intros [= <-]. apply mapM_error in H2. destruct H2 as (x & _ & Hx).
    eapply type_policy_error; eauto.
Qed.

Lemma normalized_In (df : list raw_policy) (r : raw_policy) :
  In r (normalized df) ->
  exists r0,
    In r0 df /\ Str.mem (rp_state_id r0) (map abbr STATES) = true /\
    r = set_county (normalize_county lower (option_map repl (rp_county r0)))
          (replace_states STATES_AND_TERRITORIES r0).
Proof.
  unfold normalized, drop_non_states. rewrite map_map, in_map_iff.
  intros (r0 & <- & Hr0). apply drop_where_In in Hr0. destruct Hr0 as [Hin Hc].
  apply negb_false_iff in Hc. exists r0. auto.
Qed.

Lemma assign_fips_keys (rows df df' : list raw_policy) :
  assign_fips STATES_AND_TERRITORIES lookup rows df = Ok df' ->
  map clear_fips df' = map clear_fips df.
Proof.
  revert df. induction rows as [|d rows IH]; intros df; simpl.
  - now intros [= <-].
  - destruct (String.eqb _ _); [|apply IH].
    destruct (state_fips _ _ _) as [f|]; [|discriminate].
    intros H. rewrite (IH _ H). unfold loc_set. rewrite map_map.
    apply map_ext. intros r. now destruct (rp_index r =? rp_index d).
Qed.

(** Where an output row comes from: one raw row, whose cells went
    through the abbreviation table and then through the step of their
    column. *)
Lemma clean_policy_df_rows (ts : list case) (df : list raw_policy)
    (out : list policy) :
  clean_policy_df ts df = Ok out ->
  exists lo hi,
    series_min (map date ts) = Ok lo /\ series_max (map date ts) = Ok hi /\
    forall r, In r out ->
      exists r0,
        In r0 df /\ Str.mem (rp_state_id r0) (map abbr STATES) = true /\
        p_index r = rp_index r0 /\
        p_state r = repl (rp_state_id r0) /\
        p_county r = normalize_county lower (option_map repl (rp_county r0)) /\
        p_policy_level r = repl (rp_policy_level r0) /\
        to_datetime (fix_date (repl (rp_date r0))) = Some (p_date r) /\
        p_policy_type r = lower (rename_policy (repl (rp_policy_type r0))) /\
        p_start_stop r = repl (rp_start_stop r0) /\
        lo <= p_date r <= hi /\
        Str.mem (p_policy_type r) policies_drop = false.
Proof.
  unfold clean_policy_df.
  destruct (mismatches ts (normalized df)); [|discriminate].
  destruct (assign_fips _ _ _ _) as [df1|] eqn:H1; simpl; [|discriminate].
  unfold cast_policy_fips. destruct (forallb _ df1); simpl; [|discriminate].
  destruct (mapM _ _) as [df2|] eqn:H2; simpl; [|discriminate].
  destruct (series_min _) as [lo|] eqn:H3; simpl; [|discriminate].
  destruct (series_max _) as [hi|] eqn:H4; simpl; [|discriminate].
  intros [= <-]. exists lo, hi. do 2 (split; [reflexivity|]).
  intros r Hr. unfold drop_phases in Hr.
  apply drop_where_In in Hr. destruct Hr as [Hr Hph].
  apply in_map_iff in Hr. destruct Hr as (y & <- & Hy).
  apply drop_where_In in Hy. destruct Hy as [Hy Hrange].
  destruct (Forall2_In_r _ _ _ _ (mapM_Forall2 _ _ _ H2) Hy) as (x & Hx & Hxy).
  apply in_map_iff in Hx. destruct Hx as (x1 & <- & Hx1).
  apply assign_fips_keys in H1.
  assert (Hk : In (clear_fips x1) (map clear_fips (normalized df)))
    by (rewrite <- H1; now apply in_map).
  apply in_map_iff in Hk. destruct Hk as (x0 & Hk & Hx0).
  apply normalized_In in Hx0. destruct Hx0 as (r0 & Hr0 & Hst & ->).
  exists r0. split; [assumption|]. split; [assumption|].
  unfold type_policy in Hxy. simpl in Hxy.
  destruct (rp_fips_code x1); [|discriminate].
  destruct (to_datetime (fix_date (rp_date x1))) as [d|] eqn:D; [|discriminate].
  injection Hxy as <-. simpl in Hph |- *.
  unfold clear_fips in Hk. simpl in Hk.
  injection Hk as Ei Es Ec El Ed Et Ess.
  unfold out_of_range in Hrange. simpl in Hrange.
  apply orb_false_iff in Hrange. destruct Hrange as [Hlo Hhi].
  apply Z.ltb_ge in Hlo, Hhi.
  unfold county_of, set_date. cbn [rp_county].
  rewrite <- Et in Hph.
  rewrite <- Ei, <- Es, <- Ec, <- El, <- Et, <- Ess. rewrite <- Ed in D.
  cbn [fillna]. repeat split; auto.
Qed.

End PolicyFacts.

(** Orange County, Texas passes the reconciliation although no case record
    is named ["orange, Texas"]: the time series has an Orange County in
    California. *)
Lemma C2_counterexample :
  ~ ((forall m,
        clean_policy_df Date.iso_to_datetime Str.lower Us.STATES Us.STATES_AND_TERRITORIES
          Us.lookup Sample.timeseries Sample.texas_orange
        <> Err (AssertionError m)) <->
     (forall r,
        In r (normalized Str.lower Us.STATES Us.STATES_AND_TERRITORIES Sample.texas_orange) ->
        county_of r <> "statewide"%string ->
        In (full_location_of r) (map full_loc_name Sample.timeseries))).
Proof.
  intros [H _].
  assert (P : forall m,
             clean_policy_df Date.iso_to_datetime Str.lower Us.STATES
               Us.STATES_AND_TERRITORIES Us.lookup Sample.timeseries
               Sample.texas_orange <> Err (AssertionError m))
    by (intros m; vm_compute; discriminate).
  specialize (H P _ (or_introl eq_refl)).
  assert (Hin := H ltac:(discriminate)).
  cbv in Hin. intuition discriminate.
Qed.

(** C2, amended.  The reconciliation compares bare county names: a frame
    passes it, i.e. [clean_policy_data] raises no [AssertionError], exactly
    when the normalised county of every non-statewide row occurs in the
    [county] column of the cleaned case table, whatever the state of the
    row that carries it there. *)
Theorem reconciliation_by_county_name (to_datetime : string -> option Z)
    (lower : string -> string)
    (STATES STATES_AND_TERRITORIES : list State) (lookup : string -> option State)
    (ts : list case) (df : list raw_policy) :
  (forall m,
     clean_policy_df to_datetime lower STATES STATES_AND_TERRITORIES lookup ts df
     <> Err (AssertionError m)) <->
  (forall r, In r (normalized lower STATES STATES_AND_TERRITORIES df) ->
             county_of r <> "statewide"%string ->
             In (county_of r) (map county ts)).
Proof.
  rewrite <- mismatches_nil. split.
  - intros H.
    destruct (mismatches ts (normalized lower STATES STATES_AND_TERRITORIES df))
      as [|c m] eqn:E; [reflexivity|].
    exfalso. apply (H (c :: m)). rewrite <- E.
    apply clean_policy_df_mismatch. rewrite E. discriminate.
  - intros E m H.
    apply (clean_policy_df_no_assert _ _ _ _ _ _ _ _ E) in H. discriminate.
Qed.

Lemma fix_date_0020 (rest : string) :
  fix_date ("0020" ++ rest) = ("2020" ++ rest)%string.
Proof. reflexivity. Qed.

(** C7.  A date string that begins with the year ["0020"] is rewritten to
    begin with ["2020"] before it is parsed; ["0020-04-01"] then parses to
    2020-04-01; and every row [clean_policy_data] returns carries the
    parse of its repaired date string, a date between the earliest and the
    latest date of the cleaned case table. *)
Theorem date_repaired_then_range_filtered (to_datetime : string -> option Z)
    (lower : string -> string)
    (STATES STATES_AND_TERRITORIES : list State) (lookup : string -> option State)
    (ts : list case) (df : list raw_policy) (out : list policy) :
  clean_policy_df to_datetime lower STATES STATES_AND_TERRITORIES lookup ts df = Ok out ->
  (forall rest, fix_date ("0020" ++ rest) = "2020" ++ rest)%string /\
  Date.iso_to_datetime (fix_date "0020-04-01") = Some (Date.days_from_civil 2020 4 1) /\
  exists lo hi,
    (In lo (map date ts) /\ forall d, In d (map date ts) -> lo <= d) /\
    (In hi (map date ts) /\ forall d, In d (map date ts) -> d <= hi) /\
    forall r, In r out ->
      lo <= p_date r <= hi /\
      exists r0,
        In r0 df /\ p_index r = rp_index r0 /\
        to_datetime
          (fix_date (replace_cell (mapping STATES_AND_TERRITORIES abbr name)
                       (rp_date r0))) = Some (p_date r).
Proof.
  intros H. split; [exact fix_date_0020|]. split; [reflexivity|].
  destruct (clean_policy_df_rows _ _ _ _ _ _ _ _ H) as (lo & hi & Hlo & Hhi & Hrows).
  exists lo, hi.
  split; [now apply series_min_spec|]. split; [now apply series_max_spec|].
  intros r Hr. destruct (Hrows r Hr) as (r0 & Hr0 & _ & Hi & _ & _ & _ & Hd & _ & _ & Hrange & _).
  split; [exact Hrange|]. exists r0. auto.
Qed.

Lemma date_repaired_then_range_filtered_witness :
  exists lo hi,
    In lo (map date Sample.timeseries) /\ In hi (map date Sample.timeseries) /\
    forall r, In r Sample.cleaned_policies -> lo <= p_date r <= hi.
Proof.
  destruct (date_repaired_then_range_filtered Date.iso_to_datetime Str.lower Us.STATES
              Us.STATES_AND_TERRITORIES Us.lookup Sample.timeseries
              Sample.policies Sample.cleaned_policies)
    as (_ & _ & lo & hi & [Hlo _] & [Hhi _] & Hrows).
  - vm_compute. reflexivity.
  - exists lo, hi. split; [exact Hlo|]. split; [exact Hhi|].
    intros r Hr. apply (Hrows r Hr).
Defined.

(** Unrepaired, the mis-encoded date is outside the range of timestamps
    and cannot be parsed at all. *)
Example unrepaired_date_out_of_bounds :
  Date.iso_to_datetime "0020-04-01" = None.
Proof. reflexivity. Qed.

(** ** The abbreviation table *)

Lemma mapping_In (states : list State) (c v : string) :
  In (c, v) (mapping states abbr name) <->
  exists s, In s states /\ abbr s = c /\ name s = v.
Proof.
  unfold mapping. rewrite in_map_iff. split.
  - intros (s & [= <- <-] & Hs). eauto.
  - intros (s & Hs & <- & <-). eauto.
Qed.

Lemma replace_cell_key (states : list State) (c : string) :
  (exists s, In s states /\ abbr s = c) ->
  exists s, In s states /\ abbr s = c /\
            replace_cell (mapping states abbr name) c = name s.
Proof.
  intros (s & Hs & E). unfold replace_cell.
  destruct (dict_get c (mapping states abbr name)) as [v|] eqn:G.
  - apply dict_get_Some, mapping_In in G. destruct G as (s' & Hs' & E' & <-). eauto.
  - exfalso. rewrite dict_get_None in G. apply (G (name s)).
    apply mapping_In. eauto.
Qed.

Lemma replace_cell_other (states : list State) (c : string) :
  (forall s, In s states -> abbr s <> c) ->
  replace_cell (mapping states abbr name) c = c.
Proof.
  intros N. unfold replace_cell.
  destruct (dict_get c (mapping states abbr name)) as [v|] eqn:G; [|reflexivity].
  exfalso. apply dict_get_Some, mapping_In in G. destruct G as (s & Hs & E & _).
  exact (N s Hs E).
Qed.

(** A start/stop cell that reads ["PR"]: no abbreviation of the 50 states,
    and yet rewritten, since the table [us.states.mapping] ranges over
    holds the territories too. *)
Lemma C9_counterexample :
  List.length Us.STATES = 50%nat /\
  ~ In "PR"%string (map abbr Us.STATES) /\
  ~ (forall out,
       clean_policy_df Date.iso_to_datetime Str.lower Us.STATES
         Us.STATES_AND_TERRITORIES Us.lookup Sample.timeseries
         Sample.territory_cell = Ok out ->
       forall r, In r out ->
         exists r0,
           In r0 Sample.territory_cell /\ p_index r = rp_index r0 /\
           (~ In (rp_start_stop r0) (map abbr Us.STATES) ->
            p_start_stop r = rp_start_stop r0)).
Proof.
  assert (N : ~ In "PR"%string (map abbr Us.STATES))
    by (vm_compute; intuition discriminate).
  split; [reflexivity|]. split; [exact N|].
  intros H.
  assert (C : exists out,
             clean_policy_df Date.iso_to_datetime Str.lower Us.STATES
               Us.STATES_AND_TERRITORIES Us.lookup Sample.timeseries
               Sample.territory_cell = Ok out)
    by (eexists; vm_compute; reflexivity).
  destruct C as [out C]. specialize (H out C).
  vm_compute in C. injection C as <-.
  destruct (H _ (or_introl eq_refl)) as (r0 & [<-|[]] & _ & E).
  specialize (E N). vm_compute in E. discriminate E.
Qed.

(** C9, amended.  The replacement of postal abbreviations names no column
    and ranges over the table [us.states.mapping] takes by default, the
    states and the territories: a cell that is, as a whole, the
    abbreviation of an entry of that table is rewritten to the name of the
    entry, and a cell that is no abbreviation of the table is left as it
    is.  Every row [clean_policy_data] returns holds, in each of its six
    string columns, the cell of its raw row so rewritten and then taken
    through the later steps of that column. *)
Theorem abbreviations_replaced_in_every_column (to_datetime : string -> option Z)
    (lower : string -> string)
    (STATES STATES_AND_TERRITORIES : list State) (lookup : string -> option State)
    (ts : list case) (df : list raw_policy) (out : list policy) :
  clean_policy_df to_datetime lower STATES STATES_AND_TERRITORIES lookup ts df = Ok out ->
  let repl := replace_cell (mapping STATES_AND_TERRITORIES abbr name) in
  (forall c, (exists s, In s STATES_AND_TERRITORIES /\ abbr s = c) ->
             exists s, In s STATES_AND_TERRITORIES /\ abbr s = c /\ repl c = name s) /\
  (forall c, (forall s, In s STATES_AND_TERRITORIES -> abbr s <> c) -> repl c = c) /\
  (forall r, In r out ->
     exists r0,
       In r0 df /\ p_index r = rp_index r0 /\
       p_state r = repl (rp_state_id r0) /\
       p_county r = normalize_county lower (option_map repl (rp_county r0)) /\
       p_policy_level r = repl (rp_policy_level r0) /\
       to_datetime (fix_date (repl (rp_date r0))) = Some (p_date r) /\
       p_policy_type r = lower (rename_policy (repl (rp_policy_type r0))) /\
       p_start_stop r = repl (rp_start_stop r0)).
Proof.
  intros H repl.
  split; [apply replace_cell_key|]. split; [apply replace_cell_other|].
  destruct (clean_policy_df_rows _ _ _ _ _ _ _ _ H) as (lo & hi & _ & _ & Hrows).
  intros r Hr.
  destruct (Hrows r Hr) as (r0 & H0 & _ & H1 & H2 & H3 & H4 & H5 & H6 & H7 & _).
  exists r0. repeat split; assumption.
Qed.

Lemma abbreviations_replaced_in_every_column_witness :
  exists out,
    clean_policy_df Date.iso_to_datetime Str.lower Us.STATES Us.STATES_AND_TERRITORIES
      Us.lookup Sample.timeseries Sample.territory_cell = Ok out /\
    Forall (fun r => p_state r = "California"%string /\
                     p_start_stop r = "Puerto Rico"%string) out.
Proof.
  eexists. split; [vm_compute; reflexivity|].
  apply Forall_forall. intros r Hr.
  edestruct (abbreviations_replaced_in_every_column Date.iso_to_datetime Str.lower Us.STATES
               Us.STATES_AND_TERRITORIES Us.lookup Sample.timeseries
               Sample.territory_cell) as (_ & _ & Hrows).
  - vm_compute. reflexivity.
  - destruct (Hrows r Hr) as (r0 & [<-|[]] & _ & Hs & _ & _ & _ & _ & Hp).
    rewrite Hs, Hp. split; reflexivity.
Defined.

(** ** The entry points and the cache *)

Section CacheFacts.

Variable to_datetime : string -> option Z.
Variable lower : string -> string.
Variable STATES : list State.
Variable STATES_AND_TERRITORIES : list State.
Variable lookup : string -> option State.

Local Abbreviation run_covid := (clean_covid_data to_datetime lower).
Local Abbreviation run_policy :=
  (clean_policy_data to_datetime lower STATES STATES_AND_TERRITORIES lookup).
Local Abbreviation policy_df :=
  (clean_policy_df to_datetime lower STATES STATES_AND_TERRITORIES lookup).

Lemma clean_covid_data_given (df : list raw_case) (path clean_path : string)
    (force_reload force_reclean : bool) (w : world) :
  run_covid (Some df) path clean_path force_reload force_reclean w =
  match clean_covid_df to_datetime lower df with
  | Ok t => (Ok t, to_csv clean_path (CaseClean t) w)
  | Err e => (Err e, w)
  end.
Proof.
  unfold clean_covid_data, clean_and_save_cases, io_bind, lift, write, ret.
  destruct (clean_covid_df to_datetime lower df); reflexivity.
Qed.

Lemma clean_policy_data_given (df : list raw_policy)
    (cleaned_timeseries_path path clean_path : string)
    (force_reload force_reclean : bool) (w : world) :
  run_policy (Some df) cleaned_timeseries_path path clean_path
    force_reload force_reclean w =
  match run_covid None covid_timeseries_csv cleaned_timeseries_path
          false false w with
  | (Ok ts, w1) =>
      match policy_df ts df with
      | Ok t => (Ok t, to_csv clean_path (PolicyClean t) w1)
      | Err e => (Err e, w1)
      end
  | (Err e, w1) => (Err e, w1)
  end.
Proof.
  unfold clean_policy_data, clean_and_save_policies, io_bind, lift, write, ret.
  destruct (run_covid None _ _ false false w) as [[ts|e] w1]; [|reflexivity].
  destruct (policy_df ts df); reflexivity.
Qed.

Lemma clean_covid_data_cached (t : list case) (path clean_path : string)
    (force_reload : bool) (w : world) :
  files w clean_path = Some (CaseClean t) ->
  run_covid None path clean_path force_reload false w = (Ok t, w).
Proof.
  intros H.
  unfold clean_covid_data, io_bind, exists_, read_case_clean.
  rewrite H. simpl. now rewrite H.
Qed.

Lemma clean_policy_data_cached (t : list policy)
    (cleaned_timeseries_path path clean_path : string)
    (force_reload : bool) (w : world) :
  files w clean_path = Some (PolicyClean t) ->
  run_policy None cleaned_timeseries_path path clean_path
    force_reload false w = (Ok t, w).
Proof.
  intros H.
  unfold clean_policy_data, io_bind, exists_, read_policy_clean.
  rewrite H. simpl. now rewrite H.
Qed.

End CacheFacts.

(** C10.  Given a frame, neither entry point looks at its cache: what
    [clean_covid_data] returns is the cleaning of that frame, in every
    world and for every setting of the flags, and what [clean_policy_data]
    returns is the cleaning of that frame against the time series it
    obtains.  The cached table is returned only when no frame is given,
    the file is there and [force_reclean] is off. *)
Theorem given_frame_bypasses_cache (to_datetime : string -> option Z)
    (lower : string -> string)
    (STATES STATES_AND_TERRITORIES : list State) (lookup : string -> option State) :
  (forall df path clean_path force_reload force_reclean w,
     fst (clean_covid_data to_datetime lower (Some df) path clean_path
            force_reload force_reclean w) =
     clean_covid_df to_datetime lower df) /\
  (forall df cleaned_timeseries_path path clean_path force_reload force_reclean w,
     fst (clean_policy_data to_datetime lower STATES STATES_AND_TERRITORIES lookup
            (Some df) cleaned_timeseries_path path clean_path
            force_reload force_reclean w) =
     bind (fst (clean_covid_data to_datetime lower None covid_timeseries_csv
                  cleaned_timeseries_path false false w))
          (fun ts => clean_policy_df to_datetime lower STATES STATES_AND_TERRITORIES
                       lookup ts df)) /\
  (forall t path clean_path force_reload w,
     files w clean_path = Some (CaseClean t) ->
     clean_covid_data to_datetime lower None path clean_path force_reload false w =
     (Ok t, w)) /\
  (forall t cleaned_timeseries_path path clean_path force_reload w,
     files w clean_path = Some (PolicyClean t) ->
     clean_policy_data to_datetime lower STATES STATES_AND_TERRITORIES lookup
       None cleaned_timeseries_path path clean_path force_reload false w =
     (Ok t, w)).
Proof.
  split; [|split; [|split]].
  - intros. rewrite clean_covid_data_given.
    destruct (clean_covid_df to_datetime lower df); reflexivity.
  - intros. rewrite clean_policy_data_given.
    destruct (clean_covid_data _ _ None _ _ false false w) as [[ts|e] w1]; simpl;
      [|reflexivity].
    destruct (clean_policy_df _ _ _ _ _ ts df); reflexivity.
  - intros. now apply clean_covid_data_cached.
  - intros. now apply clean_policy_data_cached.
Qed.

Lemma given_frame_bypasses_cache_witness :
  clean_covid_data Date.iso_to_datetime Str.lower None "./data/covid_timeseries.csv"
    "./data/covid_timeseries_cleaned.csv" false false Sample.cached_world =
  (Ok Sample.timeseries, Sample.cached_world) /\
  fst (clean_covid_data Date.iso_to_datetime Str.lower (Some Sample.ten_days)
         "./data/covid_timeseries.csv" "./data/covid_timeseries_cleaned.csv"
         false false Sample.cached_world) =
  clean_covid_df Date.iso_to_datetime Str.lower Sample.ten_days.
Proof.
  destruct (given_frame_bypasses_cache Date.iso_to_datetime Str.lower Us.STATES
              Us.STATES_AND_TERRITORIES Us.lookup) as (Hgiven & _ & Hcached & _).
  split.
  - apply Hcached. reflexivity.
  - apply Hgiven.
Defined.



(** ** What a run reads and writes *)

Ltac io_unfold :=
  unfold clean_covid_data, clean_policy_data, clean_and_save_policies,
    clean_and_save_cases, load_covid_data, load_policy_data, io_bind, exists_,
    read_case_clean, read_case_raw, read_policy_clean, read_policy_raw,
    download_cases, download_policies, write, ret, lift.

Lemma load_covid_frame (path : string) (force_reload : bool) (w : world) :
  let w' := snd (load_covid_data path force_reload w) in
  remote_cases w' = remote_cases w /\
  remote_policies w' = remote_policies w /\
  forall q, q <> path -> files w' q = files w q.
Proof.
  io_unfold. cbv beta.
  destruct (files w path) as [[]|] eqn:Ef, force_reload; simpl; rewrite ?Ef;
    destruct (remote_cases w) eqn:Er; simpl;
    (split; [auto|split; [auto|]]); intros q Hq;
    apply String.eqb_neq in Hq; now rewrite ?Hq.
Qed.

Lemma load_policy_frame (path : string) (force_reload : bool) (w : world) :
  let w' := snd (load_policy_data path force_reload w) in
  remote_cases w' = remote_cases w /\
  remote_policies w' = remote_policies w /\
  forall q, q <> path -> files w' q = files w q.
Proof.
  io_unfold. cbv beta.
  destruct (files w path) as [[]|] eqn:Ef, force_reload; simpl; rewrite ?Ef;
    destruct (remote_policies w) eqn:Er; simpl;
    (split; [auto|split; [auto|]]); intros q Hq;
    apply String.eqb_neq in Hq; now rewrite ?Hq.
Qed.

Section Runs.

Variable to_datetime : string -> option Z.
Variable lower : string -> string.
Variable STATES : list State.
Variable STATES_AND_TERRITORIES : list State.
Variable lookup : string -> option State.

Local Abbreviation run_covid := (clean_covid_data to_datetime lower).
Local Abbreviation run_policy :=
  (clean_policy_data to_datetime lower STATES STATES_AND_TERRITORIES lookup).
Local Abbreviation policy_df :=
  (clean_policy_df to_datetime lower STATES STATES_AND_TERRITORIES lookup).
Local Abbreviation recompute_cases := (recompute_cases to_datetime lower).
Local Abbreviation recompute_policies :=
  (recompute_policies to_datetime lower STATES STATES_AND_TERRITORIES lookup).

Lemma clean_covid_data_none (path clean_path : string)
    (force_reload force_reclean : bool) (w : world) :
  run_covid None path clean_path force_reload force_reclean w =
  match files w clean_path, force_reclean with
  | Some (CaseClean t), false => (Ok t, w)
  | Some _, false => (Err KeyError, w)
  | _, _ => recompute_cases path clean_path force_reload w
  end.
Proof.
  unfold clean_covid_data, recompute_cases, io_bind at 1, exists_, read_case_clean.
  destruct (files w clean_path) as [[]|] eqn:E, force_reclean; simpl;
    rewrite ?E; reflexivity.
Qed.

Lemma recompute_cases_fst (path clean_path : string) (force_reload : bool)
    (w : world) :
  fst (recompute_cases path clean_path force_reload w) =
  bind (fst (load_covid_data path force_reload w)) (clean_covid_df to_datetime lower).
Proof.
  unfold recompute_cases, clean_and_save_cases, io_bind, lift, write, ret.
  destruct (load_covid_data path force_reload w) as [[df|e] w0]; simpl;
    [|reflexivity].
  destruct (clean_covid_df to_datetime lower df); reflexivity.
Qed.

(** What a recomputation leaves on disk. *)
Lemma recompute_cases_snd (path clean_path : string) (force_reload : bool)
    (w : world) :
  let w0 := snd (load_covid_data path force_reload w) in
  let r := fst (recompute_cases path clean_path force_reload w) in
  let w1 := snd (recompute_cases path clean_path force_reload w) in
  remote_cases w1 = remote_cases w0 /\
  remote_policies w1 = remote_policies w0 /\
  (forall q, q <> clean_path -> files w1 q = files w0 q) /\
  match r with
  | Ok t => files w1 clean_path = Some (CaseClean t)
  | Err _ => w1 = w0
  end.
Proof.
  unfold recompute_cases, clean_and_save_cases, io_bind, lift, write, ret.
  destruct (load_covid_data path force_reload w) as [[df|e] w0]; simpl;
    [|repeat split].
  destruct (clean_covid_df to_datetime lower df); simpl; repeat split.
  - intros q Hq. apply String.eqb_neq in Hq. now rewrite Hq.
  - now rewrite String.eqb_refl.
Qed.

(** [clean_covid_data] touches its two files and nothing else. *)
Lemma covid_frame (df : option (list raw_case)) (path clean_path : string)
    (force_reload force_reclean : bool) (w : world) :
  let w' := snd (run_covid df path clean_path force_reload force_reclean w) in
  remote_cases w' = remote_cases w /\
  remote_policies w' = remote_policies w /\
  forall q, q <> path -> q <> clean_path -> files w' q = files w q.
Proof.
  destruct df as [df|].
  - rewrite clean_covid_data_given.
    destruct (clean_covid_df to_datetime lower df); simpl; repeat split.
    intros q _ Hq. apply String.eqb_neq in Hq. now rewrite Hq.
  - rewrite clean_covid_data_none.
    assert (R : let w' := snd (recompute_cases path clean_path force_reload w) in
                remote_cases w' = remote_cases w /\
                remote_policies w' = remote_policies w /\
                forall q, q <> path -> q <> clean_path -> files w' q = files w q).
    { destruct (recompute_cases_snd path clean_path force_reload w)
        as (Erc & Erp & Ef & _).
      destruct (load_covid_frame path force_reload w) as (Lrc & Lrp & Lf).
      simpl. repeat split; try congruence.
      intros q Hp Hc. now rewrite Ef, Lf. }
    destruct (files w clean_path) as [[]|], force_reclean; simpl;
      try exact R; repeat split.
Qed.

Lemma policies_snd (cleaned_timeseries_path clean_path : string)
    (df : list raw_policy) (w : world) :
  let w1 := snd (run_covid None covid_timeseries_csv cleaned_timeseries_path
                   false false w) in
  let r := fst (clean_and_save_policies to_datetime lower STATES
                  STATES_AND_TERRITORIES lookup cleaned_timeseries_path
                  clean_path df w) in
  let wf := snd (clean_and_save_policies to_datetime lower STATES
                   STATES_AND_TERRITORIES lookup cleaned_timeseries_path
                   clean_path df w) in
  remote_cases wf = remote_cases w1 /\
  remote_policies wf = remote_policies w1 /\
  (forall q, q <> clean_path -> files wf q = files w1 q) /\
  match r with
  | Ok t => files wf clean_path = Some (PolicyClean t)
  | Err _ => wf = w1
  end.
Proof.
  unfold clean_and_save_policies, io_bind, lift, write, ret.
  destruct (run_covid None _ _ false false w) as [[ts|e] w1]; simpl;
    [|repeat split].
  destruct (policy_df ts df); simpl; repeat split.
  - intros q Hq. apply String.eqb_neq in Hq. now rewrite Hq.
  - now rewrite String.eqb_refl.
Qed.

Lemma clean_policy_data_none (cleaned_timeseries_path path clean_path : string)
    (force_reload force_reclean : bool) (w : world) :
  run_policy None cleaned_timeseries_path path clean_path
    force_reload force_reclean w =
  match files w clean_path, force_reclean with
  | Some (PolicyClean t), false => (Ok t, w)
  | Some _, false => (Err KeyError, w)
  | _, _ => recompute_policies cleaned_timeseries_path path clean_path
              force_reload w
  end.
Proof.
  unfold clean_policy_data, recompute_policies, io_bind at 1, exists_,
    read_policy_clean.
  destruct (files w clean_path) as [[]|] eqn:E, force_reclean; simpl;
    rewrite ?E; reflexivity.
Qed.

Lemma recompute_policies_eq (cleaned_timeseries_path path clean_path : string)
    (force_reload : bool) (w : world) :
  recompute_policies cleaned_timeseries_path path clean_path force_reload w =
  match fst (load_policy_data path force_reload w) with
  | Ok df =>
      clean_and_save_policies to_datetime lower STATES STATES_AND_TERRITORIES lookup
        cleaned_timeseries_path clean_path df
        (snd (load_policy_data path force_reload w))
  | Err e => (Err e, snd (load_policy_data path force_reload w))
  end.
Proof.
  unfold recompute_policies, io_bind.
  destruct (load_policy_data path force_reload w) as [[df|e] w0]; reflexivity.
Qed.

End Runs.

(** * Further properties of the case/death pipeline *)

Lemma filter_filter {A} (f g : A -> bool) (l : list A) :
  filter g (filter f l) = filter (fun x => f x && g x) l.
Proof.
  induction l as [|x xs IH]; simpl; [reflexivity|].
  destruct (f x); simpl; [destruct (g x)|]; now rewrite ?IH.
Qed.

Lemma In_map_source {A K} (k : A -> K) (l l' : list A) (r : A) :
  map k l = map k l' -> In r l -> exists y, In y l' /\ k y = k r.
Proof.
  intros E Hr. apply (in_map k) in Hr. rewrite E in Hr.
  apply in_map_iff in Hr. destruct Hr as (y & Hy & Hin). eauto.
Qed.

Section CovidRows.

Variable to_datetime : string -> option Z.
Variable lower : string -> string.

Lemma clean_covid_df_static (raw : list raw_case) (df out : list case) :
  prepare to_datetime lower raw = Ok df ->
  clean_covid_df to_datetime lower raw = Ok out ->
  map static out = map static df.
Proof. intros P H. eapply clean_covid_df_keys; eauto. Qed.

(** Every output row is the typed form of a kept raw row, up to the
    columns the later steps write. *)
Lemma clean_covid_df_source (raw : list raw_case) (out : list case) (r : case) :
  clean_covid_df to_datetime lower raw = Ok out -> In r out ->
  exists x y,
    In x (kept raw) /\ type_row to_datetime lower x = Ok y /\ static y = static r.
Proof.
  intros H Hr. destruct (clean_covid_df_prepared _ _ _ _ H) as [df P].
  destruct (In_map_source static out df r (clean_covid_df_static _ _ _ P H) Hr)
    as (y & Hy & E).
  destruct (Forall2_In_r _ _ _ _ (prepare_rows _ _ _ _ P) Hy) as (x & Hx & Hxy).
  eauto.
Qed.

Lemma kept_In (raw : list raw_case) (x : raw_case) :
  In x (kept raw) ->
  In x raw /\ passes_filters x = true /\
  In x (drop_non_county (restrict_date raw)).
Proof.
  unfold kept, drop_territories, drop_non_county. intros H.
  apply drop_where_In in H. destruct H as [H Ht].
  pose proof H as H'. apply drop_where_In in H. destruct H as [H Hc].
  unfold restrict_date in H. apply filter_In in H. destruct H as [H Hd].
  split; [assumption|]. split; [|assumption].
  unfold passes_filters. apply negb_false_iff in Hc. now rewrite Hd, Hc, Ht.
Qed.

Lemma type_row_static (x : raw_case) (y : case) :
  type_row to_datetime lower x = Ok y ->
  index y = rc_index x /\
  to_datetime (rc_date x) = Some (date y) /\
  rc_fips_code x = Some (fips_code y) /\
  county y = lower (rc_location_name x) /\
  state y = rc_state x /\
  full_loc_name y = (county y ++ ", " ++ state y)%string /\
  population (county y) (state y) (rc_total_population x) =
    Some (total_population y) /\
  new_cases y = fillna 0 (rc_new_cases x) /\
  new_deaths y = fillna 0 (rc_new_deaths x) /\
  new_cases_1e6 y = clip_fill (rc_new_cases_per_100_000 x) /\
  new_deaths_1e6 y = clip_fill (rc_new_deaths_per_100_000 x).
Proof.
  unfold type_row.
  destruct (rc_fips_code x); [|discriminate].
  destruct (to_datetime (rc_date x)); [|discriminate].
  destruct (population _ _ _) eqn:E; [|discriminate].
  intros [= <-]. simpl. repeat split; auto.
Qed.

(** X1.  Every row [clean_covid_data] returns is the typed form of one raw
    row dated, as a string, before ["2021-12-31"]: it has that row's
    label, code, parsed date and state, and its county is what [str.lower]
    returns for the location name.  Since rows are dropped by label, every
    raw row before that date that carries the label of a returned row is a
    county row outside Puerto Rico and the District of Columbia. *)
Theorem output_rows_pass_filters (raw : list raw_case) (out : list case) (r : case) :
  clean_covid_df to_datetime lower raw = Ok out -> In r out ->
  (exists x,
     In x raw /\ passes_filters x = true /\ rc_index x = index r /\
     to_datetime (rc_date x) = Some (date r) /\
     rc_fips_code x = Some (fips_code r) /\
     county r = lower (rc_location_name x) /\ state r = rc_state x /\
     full_loc_name r = (county r ++ ", " ++ state r)%string) /\
  (forall x, In x raw -> String.ltb (rc_date x) max_date = true ->
             rc_index x = index r ->
             rc_location_type x = "county"%string /\
             rc_state x <> "Puerto Rico"%string /\
             rc_state x <> "District of Columbia"%string).
Proof.
  intros H Hr.
  destruct (clean_covid_df_source _ _ _ H Hr) as (x & y & Hx & Hxy & E).
  apply type_row_static in Hxy.
  destruct Hxy as (Hi & Hd & Hf & Hc & Hs & Hl & _).
  unfold static in E. injection E as Ei Ed Ef Ec Es El _ _ _ _ _.
  rewrite Ei in Hi. rewrite Ed in Hd. rewrite Ef in Hf. rewrite Ec, Es, El in Hl.
  rewrite Ec in Hc. rewrite Es in Hs.
  pose proof Hx as Hk. apply kept_In in Hk. destruct Hk as (Hraw & Hp & Hdn).
  split; [exists x; repeat split; auto|].
  intros x' Hx' Hdate Hlab.
  assert (Hr' : In x' (restrict_date raw)) by (apply filter_In; auto).
  assert (Hcounty : Str.mem (rc_location_type x') ["county"%string] = true).
  { destruct (Str.mem (rc_location_type x') _) eqn:M; [reflexivity|]. exfalso.
    unfold drop_non_county, drop_where in Hdn. apply drop_In in Hdn.
    apply (proj2 Hdn). rewrite <- Hi, <- Hlab. apply in_map, filter_In.
    now rewrite M. }
  assert (Hdn' : In x' (drop_non_county (restrict_date raw))).
  { unfold drop_non_county, drop_where. apply drop_In. split; [assumption|].
    unfold drop_non_county, drop_where in Hdn. apply drop_In in Hdn.
    rewrite Hlab, Hi. apply Hdn. }
  assert (Hterr : Str.mem (rc_state x')
                    ["Puerto Rico"; "District of Columbia"]%string = false).
  { destruct (Str.mem (rc_state x') _) eqn:M; [|reflexivity]. exfalso.
    unfold kept, drop_territories, drop_where in Hx. apply drop_In in Hx.
    apply (proj2 Hx). rewrite <- Hi, <- Hlab. apply in_map, filter_In. auto. }
  apply StrFacts.mem_In in Hcounty. destruct Hcounty as [E'|[]].
  apply StrFacts.mem_not_In in Hterr. simpl in Hterr.
  repeat split; try congruence; intros E''; apply Hterr; auto.
Qed.

End CovidRows.

Section CovidMore.

Variable to_datetime : string -> option Z.
Variable lower : string -> string.

Lemma kept_unique_filter (raw : list raw_case) :
  unique_index rc_index raw -> kept raw = filter passes_filters raw.
Proof.
  intros U. unfold kept, drop_territories, drop_non_county, restrict_date.
  assert (U1 : unique_index rc_index
                 (filter (fun r => String.ltb (rc_date r) max_date) raw))
    by now apply unique_index_filter.
  rewrite (drop_where_unique rc_index _ _ U1).
  rewrite drop_where_unique by now apply unique_index_filter.
  rewrite !filter_filter. apply filter_ext. intros x.
  unfold passes_filters. now rewrite negb_involutive, andb_assoc.
Qed.

(** X2.  When the row labels of the raw frame are unique, the rows
    [clean_covid_data] returns are, label for label and in order, the raw
    rows that pass the three filters: date before ["2021-12-31"], location
    type ["county"], state neither Puerto Rico nor the District of
    Columbia. *)
Theorem output_labels_are_filtered_labels (raw : list raw_case) (out : list case) :
  unique_index rc_index raw ->
  clean_covid_df to_datetime lower raw = Ok out ->
  map index out = map rc_index (filter passes_filters raw).
Proof.
  intros U H. destruct (clean_covid_df_prepared _ _ _ _ H) as [df P].
  rewrite <- kept_unique_filter by assumption.
  rewrite (clean_covid_df_keys index _ _ _ _ _
             (fun _ _ => eq_refl) (fun _ _ => eq_refl) (fun _ => eq_refl) P H).
  symmetry. eapply Forall2_map_eq; [|apply prepare_rows, P].
  intros x y Hxy. apply type_row_fields in Hxy. symmetry. tauto.
Qed.

(** X3.  Whatever the feed says, a returned row of Chugach, Alaska has the
    population 7102 and one of Copper River, Alaska has 2617; any other
    returned row has the population of its raw row. *)
Theorem population_overrides (raw : list raw_case) (out : list case) (r : case) :
  clean_covid_df to_datetime lower raw = Ok out -> In r out ->
  (county r = "chugach"%string -> state r = "Alaska"%string ->
   total_population r = 7102) /\
  (county r = "copper river"%string -> state r = "Alaska"%string ->
   total_population r = 2617) /\
  (~ (state r = "Alaska"%string /\
      (county r = "chugach"%string \/ county r = "copper river"%string)) ->
   exists x, In x raw /\ rc_index x = index r /\
             rc_total_population x = Some (total_population r)).
Proof.
  intros H Hr.
  destruct (clean_covid_df_source _ _ _ _ _ H Hr) as (x & y & Hx & Hxy & E).
  apply type_row_static in Hxy.
  destruct Hxy as (Hi & _ & _ & _ & _ & _ & Hp & _).
  unfold static in E. injection E as Ei _ _ Ec Es _ Ep _ _ _ _.
  rewrite Ec, Es, Ep in Hp. rewrite Ei in Hi. unfold population in Hp.
  split; [|split].
  - intros Hc Hs. rewrite Hc, Hs in Hp. simpl in Hp. congruence.
  - intros Hc Hs. rewrite Hc, Hs in Hp. simpl in Hp. congruence.
  - intros N. exists x. split; [now apply kept_In in Hx|]. split; [congruence|].
    destruct (String.eqb_spec (county r) "copper river");
      destruct (String.eqb_spec (state r) "Alaska");
      destruct (String.eqb_spec (county r) "chugach"); simpl in Hp;
      try assumption; exfalso; apply N; auto.
Qed.

Lemma mapM_Ok_iff {A B} (f : A -> result B) (l : list A) :
  (exists l', mapM f l = Ok l') <-> forall x, In x l -> exists y, f x = Ok y.
Proof.
  induction l as [|x xs IH]; simpl.
  - split; [intros _ y []|eauto].
  - split.
    + intros (l' & H) z [<-|Hz].
      * destruct (f x); [eauto|discriminate].
      * destruct (f x); [|discriminate].
        destruct (mapM f xs) as [ys|]; [|discriminate].
        apply (proj1 IH); eauto.
    + intros H. destruct (H x (or_introl eq_refl)) as [y ->].
      destruct (proj2 IH (fun z Hz => H z (or_intror Hz))) as [ys ->]. eauto.
Qed.

Lemma type_row_Ok_iff (x : raw_case) :
  (exists y, type_row to_datetime lower x = Ok y) <->
  rc_fips_code x <> None /\ to_datetime (rc_date x) <> None /\
  population (lower (rc_location_name x)) (rc_state x)
    (rc_total_population x) <> None.
Proof.
  unfold type_row.
  destruct (rc_fips_code x), (to_datetime (rc_date x)), (population _ _ _);
    split; try (intros [y E]; discriminate E); try (intros (A & B & C); congruence);
    try (intros _; repeat split; discriminate); eauto.
Qed.

Lemma type_row_error (x : raw_case) (e : error) :
  type_row to_datetime lower x = Err e -> e = ValueError.
Proof.
  unfold type_row.
  destruct (rc_fips_code x); [|now intros [= <-]].
  destruct (to_datetime (rc_date x)); [|now intros [= <-]].
  destruct (population _ _ _); [discriminate|now intros [= <-]].
Qed.

(** X4.  [clean_covid_data] succeeds exactly when every in-horizon county
    row, those of the territories included, has a code and every kept row
    has a date that parses and a population, given or overridden; the only
    exception the cleaning itself raises is a [ValueError]. *)
Theorem cleaning_succeeds_iff_castable (raw : list raw_case) :
  ((exists out, clean_covid_df to_datetime lower raw = Ok out) <->
   castable to_datetime lower raw) /\
  (forall e, clean_covid_df to_datetime lower raw = Err e -> e = ValueError).
Proof.
  unfold clean_covid_df, prepare, cast_fips, castable.
  split; [split|].
  - intros (out & H).
    destruct (forallb _ _) eqn:F; simpl in H; [|discriminate].
    destruct (mapM _ _) as [df|] eqn:M; simpl in H; [|discriminate].
    split.
    + intros x Hx. rewrite forallb_forall in F. specialize (F x Hx).
      destruct (rc_fips_code x); [discriminate|discriminate F].
    + intros x Hx.
      assert (T : exists y, type_row to_datetime lower x = Ok y)
        by (apply (proj1 (mapM_Ok_iff (type_row to_datetime lower) (kept raw)));
            [exists df; exact M|exact Hx]).
      apply type_row_Ok_iff in T. tauto.
  - intros [Hf Hk].
    assert (F : forallb (fun r => match rc_fips_code r with
                                  | Some _ => true | None => false end)
                  (drop_non_county (restrict_date raw)) = true).
    { apply forallb_forall. intros x Hx. specialize (Hf x Hx).
      destruct (rc_fips_code x); congruence. }
    rewrite F. simpl.
    change (drop_territories (drop_non_county (restrict_date raw)))
      with (kept raw).
    destruct (proj2 (mapM_Ok_iff (type_row to_datetime lower) (kept raw))) as [df ->].
    + intros x Hx. apply type_row_Ok_iff. split; [|now apply Hk].
      apply Hf. now apply kept_In in Hx.
    + simpl. eauto.
  - intros e. destruct (forallb _ _); simpl; [|now intros [= <-]].
    destruct (mapM _ _) as [df|e'] eqn:M; simpl; [discriminate|].
    intros [= <-]. apply mapM_error in M. destruct M as (x & _ & Hx).
    eapply type_row_error; eauto.
Qed.

End CovidMore.

Section RecalcFill.

Variable count : case -> Z.
Variable set : option Q -> case -> case.
Variable avg : case -> option Q.

Hypothesis set_index : forall v r, index (set v r) = index r.
Hypothesis set_date : forall v r, date (set v r) = date r.
Hypothesis set_loc : forall v r, full_loc_name (set v r) = full_loc_name r.
Hypothesis set_count : forall v r, count (set v r) = count r.
Hypothesis set_set : forall v w r, set v (set w r) = set v r.
Hypothesis set_avg : forall v r, avg (set v r) = v.

(** Whatever the labels, a loop that iterates over a row for every label
    that carries a null leaves no null behind. *)
Lemma recalc_no_null (nulls df : list case) (r' : case) :
  (forall r, In r df -> avg r = None ->
             exists d, In d nulls /\ index d = index r) ->
  In r' (recalc count set nulls df) -> avg r' <> None.
Proof.
  intros Hcover.
  rewrite (recalc_closed count set set_index set_date set_loc set_count set_set).
  rewrite in_map_iff. intros (r & <- & Hr).
  destruct (find _ (rev nulls)) as [d|] eqn:F.
  - rewrite set_avg. discriminate.
  - intros E. destruct (Hcover r Hr E) as (d & Hd & Hi).
    apply -> in_rev in Hd. apply (find_none _ _ F d) in Hd.
    rewrite Hi, Z.eqb_refl in Hd. discriminate.
Qed.

End RecalcFill.

(** The gap fill leaves no null average, with or without unique labels. *)
Lemma fill_7day_no_null (df : list case) (r : case) :
  In r (fill_7day df) ->
  new_cases_7day r <> None /\ new_deaths_7day r <> None.
Proof.
  unfold fill_7day. set (df0 := map fill_seed df).
  set (df1 := recalc new_cases set_new_cases_7day (nulls_case7day df0) df0).
  intros Hr.
  assert (C1 : forall r1, In r1 df1 -> new_cases_7day r1 <> None).
  { intros r1. apply (recalc_no_null new_cases set_new_cases_7day new_cases_7day);
      auto.
    intros x Hx E. exists x. split; [|reflexivity].
    unfold nulls_case7day. apply filter_In. now rewrite E. }
  split.
  - destruct (In_map_source new_cases_7day _ df1 r
                (recalc_keys new_cases_7day new_deaths set_new_deaths_7day
                   (nulls_death7day df0) df1 (fun _ _ => eq_refl)) Hr)
      as (y & Hy & E).
    rewrite <- E. now apply C1.
  - revert Hr.
    apply (recalc_no_null new_deaths set_new_deaths_7day new_deaths_7day); auto.
    intros x Hx E.
    destruct (In_map_source (fun r => (index r, new_deaths_7day r)) df1 df0 x
                (recalc_keys (fun r => (index r, new_deaths_7day r))
                   new_cases set_new_cases_7day
                   (nulls_case7day df0) df0 (fun _ _ => eq_refl)) Hx)
      as (y & Hy & Ey).
    injection Ey as Ei Ed. exists y. split; [|assumption].
    unfold nulls_death7day. apply filter_In. split; [assumption|].
    now rewrite Ed, E.
Qed.

Lemma clip_fill_nonneg (c : option Q) : (0 <= clip_fill c)%Q.
Proof.
  unfold clip_fill. destruct c as [q|]; [|apply Qle_refl].
  destruct (Qle_bool 0 q) eqn:E; [now apply Qle_bool_iff|apply Qle_refl].
Qed.

Section CovidColumns.

Variable to_datetime : string -> option Z.
Variable lower : string -> string.

Lemma clean_covid_df_rows_norm (raw : list raw_case) (out : list case) (r : case) :
  clean_covid_df to_datetime lower raw = Ok out -> In r out ->
  exists df r1,
    prepare to_datetime lower raw = Ok df /\ In r1 (fill_7day df) /\ r = normalize r1.
Proof.
  unfold clean_covid_df. destruct (prepare to_datetime lower raw) as [df|]; simpl;
    [|discriminate].
  intros [= <-] Hr. apply in_map_iff in Hr. destruct Hr as (r1 & <- & Hr1). eauto.
Qed.

(** X5.  No returned row has a null 7-day average, of cases or of deaths,
    whatever the labels of the frame, and its two per-100k rates are not
    negative. *)
Theorem output_has_no_gaps (raw : list raw_case) (out : list case) (r : case) :
  clean_covid_df to_datetime lower raw = Ok out -> In r out ->
  new_cases_7day r <> None /\ new_deaths_7day r <> None /\
  (0 <= new_cases_1e6 r)%Q /\ (0 <= new_deaths_1e6 r)%Q.
Proof.
  intros H Hr.
  destruct (clean_covid_df_rows_norm _ _ _ H Hr) as (df & r1 & _ & Hr1 & ->).
  destruct (fill_7day_no_null _ _ Hr1) as [Hc Hd].
  destruct (clean_covid_df_source _ _ _ _ _ H Hr) as (x & y & _ & Hxy & E).
  apply type_row_static in Hxy.
  destruct Hxy as (_ & _ & _ & _ & _ & _ & _ & _ & _ & Hc1 & Hd1).
  unfold static in E. injection E as _ _ _ _ _ _ _ _ _ Ec Ed.
  simpl in *. rewrite <- Ec, <- Ed, Hc1, Hd1.
  repeat split; auto using clip_fill_nonneg.
Qed.

(** X6.  The per-100k averages are computed from the averages as they
    stand after the gap fill: in every returned row with a population
    other than zero, each is the 7-day average divided by the population
    over 100000. *)
Theorem averages_normalised_after_fill (raw : list raw_case) (out : list case)
    (r : case) :
  clean_covid_df to_datetime lower raw = Ok out -> In r out ->
  total_population r <> 0 ->
  exists a b,
    new_cases_7day r = Some a /\ new_deaths_7day r = Some b /\
    new_cases_7day_1e6 r = Some (a / (inject_Z (total_population r) / 100000))%Q /\
    new_deaths_7day_1e6 r = Some (b / (inject_Z (total_population r) / 100000))%Q.
Proof.
  intros H Hr Hp.
  destruct (clean_covid_df_rows_norm _ _ _ H Hr) as (df & r1 & _ & Hr1 & ->).
  destruct (fill_7day_no_null _ _ Hr1) as [Hc Hd].
  simpl in *. apply Z.eqb_neq in Hp.
  destruct (new_cases_7day r1) as [a|]; [|congruence].
  destruct (new_deaths_7day r1) as [b|]; [|congruence].
  exists a, b. unfold per_100k. now rewrite Hp.
Qed.

End CovidColumns.

Lemma Forall2_with_In {A B} (R : A -> B -> Prop) (l : list A) (l' : list B) :
  Forall2 R l l' -> Forall2 (fun x y => R x y /\ In x l /\ In y l') l l'.
Proof.
  induction 1 as [|x y l l' Hxy _ IH]; constructor.
  - simpl. auto.
  - eapply Forall2_impl; [|exact IH]. simpl. intros a b (Hab & Ha & Hb). auto.
Qed.

Lemma Forall2_map_r {A B C} (R : A -> B -> Prop) (R' : A -> C -> Prop)
    (f : B -> C) (l : list A) (l' : list B) :
  (forall x y, R x y -> R' x (f y)) ->
  Forall2 R l l' -> Forall2 R' l (map f l').
Proof. intros HR. induction 1; simpl; constructor; auto. Qed.

Lemma filter_singleton {A} (P : A -> bool) (l : list A) (r : A) :
  NoDup l -> In r l -> P r = true ->
  (forall y, In y l -> P y = true -> y = r) ->
  filter P l = [r].
Proof.
  induction l as [|x xs IH]; simpl; [tauto|].
  intros N Hr Pr Huniq. inversion N as [|? ? Hx Hxs]; subst.
  assert (Hempty : ~ In r xs -> filter P xs = []).
  { intros Nr. destruct (filter P xs) as [|y ys] eqn:F; [reflexivity|].
    exfalso. assert (Hy : In y (filter P xs)) by (rewrite F; simpl; auto).
    apply filter_In in Hy. destruct Hy as [Hy Py].
    apply Nr. rewrite <- (Huniq y (or_intror Hy) Py). exact Hy. }
  destruct Hr as [->|Hr].
  - rewrite Pr, Hempty by assumption. reflexivity.
  - destruct (P x) eqn:Px.
    + exfalso. apply Hx. rewrite (Huniq x (or_introl eq_refl) Px). exact Hr.
    + apply IH; auto.
Qed.

Lemma clean_row_kept (df : list case) (r : case) :
  (forall q, new_cases_7day r = Some q ->
             new_cases_7day (clean_row df r) = Some q) /\
  (forall q, new_deaths_7day r = Some q ->
             new_deaths_7day (clean_row df r) = Some q).
Proof.
  unfold clean_row, fill_row, fill_seed.
  split; intros q E; destruct (date r <? seed_cutoff);
    destruct (new_cases_7day r) as [a|] eqn:Ea;
    destruct (new_deaths_7day r) as [b|] eqn:Eb;
    try discriminate E; simpl; rewrite ?Ea, ?Eb; simpl; rewrite ?Ea, ?Eb;
    congruence.
Qed.

Section CovidAverages.

Variable to_datetime : string -> option Z.
Variable lower : string -> string.

(** With unique labels, the output is the row-by-row image of the raw rows
    that pass the filters. *)
Lemma clean_covid_df_pairs (raw : list raw_case) (out : list case) :
  unique_index rc_index raw ->
  clean_covid_df to_datetime lower raw = Ok out ->
  exists df,
    out = map (clean_row df) df /\ unique_index index out /\
    Forall2 (fun x r => exists r0, type_row to_datetime lower x = Ok r0 /\
                                   r = clean_row df r0 /\ In r out)
      (filter passes_filters raw) out.
Proof.
  intros U H. destruct (clean_covid_df_prepared _ _ _ _ H) as [df P].
  pose proof (clean_covid_df_unique _ _ _ _ U P) as E. rewrite H in E.
  injection E as ->. exists df. split; [reflexivity|]. split.
  - unfold unique_index. rewrite map_map. erewrite map_ext.
    + eapply prepare_unique; eauto.
    + intros r. apply clean_row_keys.
  - rewrite <- kept_unique_filter by assumption.
    eapply Forall2_map_r; [|apply Forall2_with_In, prepare_rows, P].
    simpl. intros x y (Hxy & _ & Hy). exists y. split; [assumption|].
    split; [reflexivity|]. now apply in_map.
Qed.

(** X7.  When the row labels of the raw frame are unique, a 7-day average
    the feed provides is in the output as the feed gave it, whatever the
    date of the row. *)
Theorem feed_averages_kept (raw : list raw_case) (out : list case) :
  unique_index rc_index raw ->
  clean_covid_df to_datetime lower raw = Ok out ->
  Forall2
    (fun x r =>
       rc_index x = index r /\
       (forall q, rc_new_cases_7_day_rolling_avg x = Some q ->
                  new_cases_7day r = Some q) /\
       (forall q, rc_new_deaths_7_day_rolling_avg x = Some q ->
                  new_deaths_7day r = Some q))
    (filter passes_filters raw) out.
Proof.
  intros U H. destruct (clean_covid_df_pairs _ _ U H) as (df & _ & _ & F).
  eapply Forall2_impl; [|exact F]. simpl.
  intros x r (r0 & Hx & -> & _). apply type_row_fields in Hx.
  destruct Hx as (Hi & _ & _ & Hc & Hd).
  destruct (clean_row_kept df r0) as [Kc Kd].
  split; [symmetry; rewrite <- Hi; apply clean_row_keys|].
  split; intros q E; [apply Kc|apply Kd]; congruence.
Qed.

(** X8.  When the row labels of the raw frame are unique, a row on or
    after 2020-01-30 whose average the feed left null and which is the
    only row of its location in its 7-day window gets its own count over 7:
    the window shrinks to what the frame holds, it is never padded. *)
Theorem lone_row_average (raw : list raw_case) (out : list case) :
  unique_index rc_index raw ->
  clean_covid_df to_datetime lower raw = Ok out ->
  Forall2
    (fun x r =>
       seed_cutoff <= date r ->
       (forall y, In y out -> full_loc_name y = full_loc_name r ->
                  date r - 7 < date y <= date r -> index y = index r) ->
       (rc_new_cases_7_day_rolling_avg x = None ->
        new_cases_7day r = Some (inject_Z (new_cases r) / 7)%Q) /\
       (rc_new_deaths_7_day_rolling_avg x = None ->
        new_deaths_7day r = Some (inject_Z (new_deaths r) / 7)%Q))
    (filter passes_filters raw) out.
Proof.
  intros U H. destruct (clean_covid_df_pairs _ _ U H) as (df & Eout & Uout & F).
  eapply Forall2_impl; [|exact F]. simpl.
  intros x r (r0 & Hx & Er & Hr) Hcut Hlone.
  apply type_row_fields in Hx. destruct Hx as (_ & _ & _ & Hc & Hd).
  assert (W : trailing_window out r = [r]).
  { apply filter_singleton; auto.
    - eapply NoDup_map_inv. exact Uout.
    - rewrite String.eqb_refl. simpl.
      apply andb_true_iff. split; [apply Z.ltb_lt|apply Z.leb_le]; lia.
    - intros y Hy Py. apply (unique_index_inj index out); auto.
      rewrite !andb_true_iff, String.eqb_eq, Z.ltb_lt, Z.leb_le in Py.
      apply Hlone; tauto. }
  assert (Hcut0 : seed_cutoff <= date r0)
    by (rewrite Er in Hcut; now rewrite (proj1 (proj2 (clean_row_keys df r0))) in Hcut).
  destruct (clean_row_recomputed df r0 Hcut0) as [Rc Rd].
  assert (Wc : forall count,
             (forall z, count (clean_row df z) = count z) ->
             (forall z, count (fill_seed z) = count z) ->
             window_avg count (map fill_seed df) r0 =
             (inject_Z (count r) / 7)%Q).
  { intros count Hk Hs.
    rewrite (window_avg_clean count df (clean_row df) r0); auto;
      try (intros z; apply clean_row_keys).
    rewrite <- Eout, <- Er, window_avg_trailing, W. reflexivity. }
  split; intros E.
  - rewrite Er at 1. rewrite Rc by congruence. f_equal.
    apply Wc; intros z; (apply clean_row_keys || apply fill_seed_keys).
  - rewrite Er at 1. rewrite Rd by congruence. f_equal.
    apply Wc; intros z; (apply clean_row_keys || apply fill_seed_keys).
Qed.

End CovidAverages.

(** * Further properties of the policy pipeline *)

(** X9.  Every row [clean_policy_data] returns comes from a raw row whose
    state code is one of [us.states.STATES]; its policy type is what
    [str.lower] returns for that row's policy type once the abbreviation
    table and the synonyms have gone over it, and is none of the six phase
    placeholders. *)
Theorem output_policies_are_named_actions (to_datetime : string -> option Z)
    (lower : string -> string)
    (STATES STATES_AND_TERRITORIES : list State) (lookup : string -> option State)
    (ts : list case) (df : list raw_policy) (out : list policy) (r : policy) :
  clean_policy_df to_datetime lower STATES STATES_AND_TERRITORIES lookup ts df = Ok out ->
  In r out ->
  ~ In (p_policy_type r) policies_drop /\
  exists r0 s,
    In r0 df /\ p_index r = rp_index r0 /\ In s STATES /\ abbr s = rp_state_id r0 /\
    p_policy_type r =
    lower (rename_policy
             (replace_cell (mapping STATES_AND_TERRITORIES abbr name)
                (rp_policy_type r0))).
Proof.
  intros H Hr.
  destruct (clean_policy_df_rows _ _ _ _ _ _ _ _ H) as (lo & hi & _ & _ & Hrows).
  destruct (Hrows r Hr) as (r0 & H0 & Hst & Hi & _ & _ & _ & _ & Ht & _ & _ & Hph).
  split; [now apply StrFacts.mem_not_In|].
  apply StrFacts.mem_In, in_map_iff in Hst. destruct Hst as (s & Hs & Hin).
  exists r0, s. auto.
Qed.

(** X10.  The loop that applies the nine policy synonyms one after the
    other amounts to a single look-up: a label that is a key of the table
    becomes its short form, any other label is unchanged, and no
    replacement feeds a later one. *)
Theorem rename_policy_is_one_lookup (t : string) :
  rename_policy t = lookup_synonym t.
Proof.
  unfold rename_policy, lookup_synonym, policy_replacements_dict.
  cbn [fold_left find fst snd].
  repeat match goal with
         | |- context [String.eqb t ?k] =>
             destruct (String.eqb_spec t k) as [->|?]; [reflexivity|]
         end.
  reflexivity.
Qed.

Lemma find_filter {A} (p q : A -> bool) (l : list A) :
  find (fun x => p x && q x) l = find q (filter p l).
Proof.
  induction l as [|x xs IH]; simpl; [reflexivity|].
  destruct (p x); simpl; [destruct (q x)|]; auto.
Qed.

Lemma rev_filter {A} (p : A -> bool) (l : list A) :
  rev (filter p l) = filter p (rev l).
Proof.
  induction l as [|x xs IH]; simpl; [reflexivity|].
  rewrite filter_app. simpl. destruct (p x); simpl; now rewrite IH, ?app_nil_r.
Qed.

Lemma Forall2_map_self {A B} (R : A -> B -> Prop) (f : A -> B) (l : list A) :
  (forall x, In x l -> R x (f x)) -> Forall2 R l (map f l).
Proof.
  induction l as [|x xs IH]; simpl; constructor; auto.
Qed.

Section Fips.

Variable to_datetime : string -> option Z.
Variable lower : string -> string.
Variable STATES : list State.
Variable STATES_AND_TERRITORIES : list State.
Variable lookup : string -> option State.

Local Abbreviation fips_of := (state_fips STATES_AND_TERRITORIES lookup).
Local Abbreviation assign := (assign_fips STATES_AND_TERRITORIES lookup).
Local Abbreviation assigned := (assigned STATES_AND_TERRITORIES lookup).

Lemma assign_fips_closed (rows df df' : list raw_policy) :
  assign rows df = Ok df' ->
  (forall d, In d rows -> is_state_level d = true ->
             exists f, fips_of (rp_state_id d) = Ok f) /\
  df' = map (assigned rows) df.
Proof.
  revert df. induction rows as [|d rows IH]; intros df; simpl.
  - intros [= <-]. split; [intros d []|]. symmetry. apply map_id.
  - fold (is_state_level d). destruct (is_state_level d) eqn:S.
    + destruct (fips_of (rp_state_id d)) as [f|] eqn:F; [|discriminate].
      intros H. apply IH in H. destruct H as [Hok ->]. split.
      * intros d0 [<-|Hd0] Hs; [eauto|auto].
      * unfold loc_set. rewrite map_map. apply map_ext. intros r.
        unfold assigned. simpl rev. rewrite find_app_first.
        assert (Ei : rp_index (if rp_index r =? rp_index d
                               then set_fips f r else r) = rp_index r)
          by (destruct (rp_index r =? rp_index d); reflexivity).
        rewrite Ei.
        destruct (find _ (rev rows)) as [d'|] eqn:Fd.
        -- apply find_some in Fd. destruct Fd as [Hd' Pd'].
           apply andb_true_iff in Pd'. destruct Pd' as [Sd' _].
           apply in_rev in Hd'. destruct (Hok d' Hd' Sd') as [f' ->].
           destruct (rp_index r =? rp_index d); reflexivity.
        -- cbn [find]. rewrite S, Z.eqb_sym. cbn [andb].
           destruct (rp_index d =? rp_index r); [now rewrite F|reflexivity].
    + intros H. apply IH in H. destruct H as [Hok ->]. split.
      * intros d0 [<-|Hd0] Hs; [congruence|auto].
      * apply map_ext. intros r. unfold assigned. simpl rev.
        rewrite find_app_first. destruct (find _ (rev rows)); [reflexivity|].
        cbn [find]. now rewrite S.
Qed.

(** With unique labels the loop gives each state-level row the code of
    its own state and leaves the other rows alone. *)
Lemma assign_fips_unique (df df' : list raw_policy) :
  unique_index rp_index df ->
  assign df df = Ok df' ->
  Forall2
    (fun r r' =>
       if is_state_level r
       then exists f, fips_of (rp_state_id r) = Ok f /\ r' = set_fips f r
       else r' = r)
    df df'.
Proof.
  intros U H. apply assign_fips_closed in H. destruct H as [Hok ->].
  assert (G : forall r, In r df ->
                if is_state_level r
                then exists f, fips_of (rp_state_id r) = Ok f /\
                               assigned df r = set_fips f r
                else assigned df r = r).
  { intros r Hr. unfold assigned.
    rewrite find_filter, <- rev_filter, (find_label rp_index _ _ _ U Hr).
    destruct (is_state_level r) eqn:S; [|reflexivity].
    destruct (Hok r Hr S) as [f F]. exists f. now rewrite F. }
  now apply Forall2_map_self.
Qed.

End Fips.

Section PolicyFips.

Variable to_datetime : string -> option Z.
Variable lower : string -> string.
Variable STATES : list State.
Variable STATES_AND_TERRITORIES : list State.
Variable lookup : string -> option State.

Local Abbreviation repl := (replace_cell (mapping STATES_AND_TERRITORIES abbr name)).

Lemma normalized_unique (df : list raw_policy) :
  unique_index rp_index df ->
  unique_index rp_index (normalized lower STATES STATES_AND_TERRITORIES df).
Proof.
  intros U. unfold unique_index, normalized. rewrite !map_map. simpl.
  unfold drop_non_states, drop_where. now apply unique_index_drop.
Qed.

(** X11.  When the row labels of the policy frame are unique, a returned
    row whose policy level is ["state"] carries the FIPS code of its state,
    looked up by the state's name, and any other returned row carries the
    code its raw row had. *)
Theorem state_rows_get_state_fips (ts : list case) (df : list raw_policy)
    (out : list policy) (r : policy) :
  unique_index rp_index df ->
  clean_policy_df to_datetime lower STATES STATES_AND_TERRITORIES lookup ts df = Ok out ->
  In r out ->
  exists r0,
    In r0 df /\ p_index r = rp_index r0 /\
    (repl (rp_policy_level r0) = "state"%string ->
     state_fips STATES_AND_TERRITORIES lookup (repl (rp_state_id r0)) =
     Ok (p_fips_code r)) /\
    (repl (rp_policy_level r0) <> "state"%string ->
     rp_fips_code r0 = Some (p_fips_code r)).
Proof.
  intros U. unfold clean_policy_df.
  set (nd := normalized lower STATES STATES_AND_TERRITORIES df).
  destruct (mismatches ts nd); [|discriminate].
  destruct (assign_fips _ _ nd nd) as [df1|] eqn:H1; simpl; [|discriminate].
  unfold cast_policy_fips. destruct (forallb _ df1); simpl; [|discriminate].
  destruct (mapM _ _) as [df2|] eqn:H2; simpl; [|discriminate].
  destruct (series_min _) as [lo|]; simpl; [|discriminate].
  destruct (series_max _) as [hi|]; simpl; [|discriminate].
  intros [= <-] Hr. unfold drop_phases in Hr.
  apply drop_where_In in Hr. destruct Hr as [Hr _].
  apply in_map_iff in Hr. destruct Hr as (y & <- & Hy).
  apply drop_where_In in Hy. destruct Hy as [Hy _].
  destruct (Forall2_In_r _ _ _ _ (mapM_Forall2 _ _ _ H2) Hy) as (x & Hx & Hxy).
  apply in_map_iff in Hx. destruct Hx as (x1 & <- & Hx1).
  pose proof (assign_fips_unique _ _ _ _ (normalized_unique _ U) H1) as F.
  destruct (Forall2_In_r _ _ _ _ F Hx1) as (x0 & Hx0 & R).
  apply normalized_In in Hx0. destruct Hx0 as (r0 & Hr0 & _ & E0).
  exists r0. split; [assumption|].
  unfold type_policy in Hxy. simpl in Hxy.
  destruct (rp_fips_code x1) as [f1|] eqn:F1; [|discriminate].
  destruct (to_datetime _); [|discriminate].
  injection Hxy as <-. simpl.
  assert (Hlevel : is_state_level x0 =
                   String.eqb (repl (rp_policy_level r0)) "state")
    by (rewrite E0; reflexivity).
  assert (Hstate : rp_state_id x0 = repl (rp_state_id r0))
    by (rewrite E0; reflexivity).
  assert (Hfips : rp_fips_code x0 = rp_fips_code r0)
    by (rewrite E0; reflexivity).
  assert (Hidx : rp_index x0 = rp_index r0) by (rewrite E0; reflexivity).
  rewrite Hlevel in R.
  destruct (String.eqb_spec (repl (rp_policy_level r0)) "state") as [L|L].
  - destruct R as (f & Hf & ->). simpl in F1. injection F1 as <-.
    rewrite Hstate in Hf. simpl. split; [assumption|]. split; [auto|congruence].
  - subst x1. split; [assumption|]. split; [congruence|].
    intros _. now rewrite <- Hfips.
Qed.

(** X12.  Against an empty case table the policy cleaning never returns a
    table: either the reconciliation fails or the date range of the case
    table cannot be taken. *)
Theorem empty_case_table_always_raises (df : list raw_policy) :
  (exists e,
     clean_policy_df to_datetime lower STATES STATES_AND_TERRITORIES lookup [] df
     = Err e) /\
  (forall r, In r (normalized lower STATES STATES_AND_TERRITORIES df) ->
             county_of r <> "statewide"%string ->
             exists m,
               clean_policy_df to_datetime lower STATES STATES_AND_TERRITORIES lookup
                 [] df = Err (AssertionError m) /\
               In (county_of r) m).
Proof.
  split.
  - unfold clean_policy_df.
    destruct (mismatches [] _); [|eauto].
    destruct (assign_fips _ _ _ _) as [df1|]; simpl; [|eauto].
    destruct (cast_policy_fips df1); simpl; [|eauto].
    destruct (mapM _ _); simpl; eauto.
  - intros r Hr Hs.
    assert (Hin : In (county_of r)
                    (mismatches [] (normalized lower STATES STATES_AND_TERRITORIES df)))
      by (apply mismatches_In; simpl; repeat split; eauto).
    eexists. split; [|exact Hin].
    apply clean_policy_df_mismatch. intros E. now rewrite E in Hin.
Qed.

End PolicyFips.

Lemma Forall2_filter {A B} (R : A -> B -> Prop) (p : A -> bool) (q : B -> bool)
    (l : list A) (l' : list B) :
  (forall x y, R x y -> p x = q y) ->
  Forall2 R l l' -> Forall2 R (filter p l) (filter q l').
Proof.
  intros HR. induction 1 as [|x y l l' Hxy _ IH]; simpl; [constructor|].
  rewrite (HR _ _ Hxy). destruct (q y); [constructor|]; assumption.
Qed.

Lemma Forall2_of_map {A B C} (R : B -> C -> Prop) (f : A -> B) (l : list A)
    (l' : list C) :
  Forall2 R (map f l) l' -> Forall2 (fun x y => R (f x) y) l l'.
Proof.
  revert l'. induction l as [|x xs IH]; simpl; intros l' H;
    inversion H; subst; constructor; auto.
Qed.

Lemma in_range_out_of_range (lo hi : Z) (y : policy) :
  (lo <=? p_date y) && (p_date y <=? hi) = negb (out_of_range lo hi y).
Proof.
  unfold out_of_range.
  destruct (Z.leb_spec lo (p_date y)), (Z.leb_spec (p_date y) hi),
    (Z.ltb_spec (p_date y) lo), (Z.ltb_spec hi (p_date y)); simpl;
    reflexivity || lia.
Qed.

Section PolicyKept.

Variable to_datetime : string -> option Z.
Variable lower : string -> string.
Variable STATES : list State.
Variable STATES_AND_TERRITORIES : list State.
Variable lookup : string -> option State.

Local Abbreviation repl := (replace_cell (mapping STATES_AND_TERRITORIES abbr name)).
Local Abbreviation assigned := (assigned STATES_AND_TERRITORIES lookup).

Lemma assigned_fields (rows : list raw_policy) (r : raw_policy) :
  clear_fips (assigned rows r) = clear_fips r.
Proof.
  unfold assigned. destruct (find _ _) as [d|]; [|reflexivity].
  destruct (state_fips _ _ _); reflexivity.
Qed.

Lemma normalized_unique_filter (df : list raw_policy) :
  unique_index rp_index df ->
  normalized lower STATES STATES_AND_TERRITORIES df =
  map (fun r => set_county (normalize_county lower (option_map repl (rp_county r)))
                  (replace_states STATES_AND_TERRITORIES r))
    (filter (fun r => Str.mem (rp_state_id r) (map abbr STATES)) df).
Proof.
  intros U. unfold normalized, drop_non_states.
  rewrite (drop_where_unique rp_index _ _ U), map_map.
  f_equal. apply filter_ext. intros r. apply negb_involutive.
Qed.

(** X19.  When the row labels of the policy frame are unique, the rows
    [clean_policy_data] returns are, label for label and in order, the raw
    rows that pass its three filters: state among [us.states.STATES], date
    within the first and the last date of the case table, policy type no
    phase placeholder. *)
Theorem output_policy_labels_are_filtered_labels (ts : list case)
    (df : list raw_policy) (out : list policy) :
  unique_index rp_index df ->
  clean_policy_df to_datetime lower STATES STATES_AND_TERRITORIES lookup ts df = Ok out ->
  exists lo hi,
    series_min (map date ts) = Ok lo /\ series_max (map date ts) = Ok hi /\
    map p_index out =
    map rp_index
      (filter (policy_row_kept to_datetime lower STATES STATES_AND_TERRITORIES lo hi) df).
Proof.
  intros U. unfold clean_policy_df.
  rewrite (normalized_unique_filter _ U).
  set (g := fun r => set_county (normalize_county lower (option_map repl (rp_county r)))
                       (replace_states STATES_AND_TERRITORIES r)).
  set (st := fun r => Str.mem (rp_state_id r) (map abbr STATES)).
  set (nd := map g (filter st df)).
  destruct (mismatches ts nd); [|discriminate].
  destruct (assign_fips _ _ nd nd) as [df1|] eqn:H1; simpl; [|discriminate].
  unfold cast_policy_fips. destruct (forallb _ df1); simpl; [|discriminate].
  destruct (mapM _ _) as [df2|] eqn:H2; simpl; [|discriminate].
  destruct (series_min _) as [lo|]; simpl; [|discriminate].
  destruct (series_max _) as [hi|]; simpl; [|discriminate].
  intros [= <-]. exists lo, hi. do 2 (split; [reflexivity|]).
  apply assign_fips_closed in H1. destruct H1 as [_ ->].
  apply mapM_Forall2 in H2. unfold nd in H2 at 2.
  do 3 apply Forall2_of_map in H2.
  set (RA := fun (x : raw_policy) (y : policy) =>
               rp_index x = p_index y /\
               to_datetime (fix_date (repl (rp_date x))) = Some (p_date y) /\
               p_policy_type y = repl (rp_policy_type x)).
  assert (FA : Forall2 RA (filter st df) df2).
  { eapply Forall2_impl; [|exact H2]. simpl. intros x y Hxy.
    pose proof (assigned_fields nd (g x)) as Ec.
    unfold type_policy in Hxy. simpl in Hxy.
    destruct (rp_fips_code _); [|discriminate].
    assert (Ed : rp_date (assigned nd (g x)) = repl (rp_date x))
      by (change (rp_date (clear_fips (assigned nd (g x))) = repl (rp_date x));
          rewrite Ec; reflexivity).
    assert (Ei : rp_index (assigned nd (g x)) = rp_index x)
      by (change (rp_index (clear_fips (assigned nd (g x))) = rp_index x);
          rewrite Ec; reflexivity).
    assert (Et : rp_policy_type (assigned nd (g x)) = repl (rp_policy_type x))
      by (change (rp_policy_type (clear_fips (assigned nd (g x))) =
                  repl (rp_policy_type x));
          rewrite Ec; reflexivity).
    rewrite Ed in Hxy.
    destruct (to_datetime _) as [d|] eqn:D; [|discriminate].
    injection Hxy as <-. unfold RA. simpl. rewrite Ei, Et. auto. }
  assert (U2 : unique_index p_index df2).
  { unfold unique_index.
    rewrite <- (Forall2_map_eq rp_index p_index RA (filter st df) df2);
      [now apply unique_index_filter|intros x y H; apply H|exact FA]. }
  rewrite (drop_where_unique p_index _ _ U2).
  set (inr := fun r => match to_datetime (fix_date (repl (rp_date r))) with
                       | Some d => (lo <=? d) && (d <=? hi)
                       | None => false
                       end).
  assert (FB : Forall2 RA (filter inr (filter st df))
                 (filter (fun r => negb (out_of_range lo hi r)) df2)).
  { apply Forall2_filter; [|exact FA]. intros x y (_ & Hd & _).
    unfold inr. rewrite Hd. apply in_range_out_of_range. }
  set (df3 := filter (fun r => negb (out_of_range lo hi r)) df2) in *.
  set (ren := fun r => set_policy_type (lower (rename_policy (p_policy_type r))) r).
  set (RD := fun (x : raw_policy) (y : policy) =>
               rp_index x = p_index y /\
               p_policy_type y = lower (rename_policy (repl (rp_policy_type x)))).
  assert (FD : Forall2 RD (filter inr (filter st df)) (map ren df3)).
  { eapply Forall2_map_r; [|exact FB]. intros x y (Hi & _ & Ht).
    split; [exact Hi|]. simpl. now rewrite Ht. }
  assert (U3 : unique_index p_index (map ren df3)).
  { unfold unique_index. rewrite map_map. simpl.
    now apply (unique_index_filter p_index). }
  unfold drop_phases. rewrite (drop_where_unique p_index _ _ U3).
  set (nph := fun r => negb (Str.mem (lower (rename_policy (repl (rp_policy_type r))))
                               policies_drop)).
  assert (FE : Forall2 RD (filter nph (filter inr (filter st df)))
                 (filter (fun r => negb (Str.mem (p_policy_type r) policies_drop))
                    (map ren df3))).
  { apply Forall2_filter; [|exact FD]. intros x y (_ & Ht).
    unfold nph. now rewrite Ht. }
  rewrite !filter_filter in FE.
  rewrite (filter_ext _ (policy_row_kept to_datetime lower STATES
                           STATES_AND_TERRITORIES lo hi)) in FE
    by (intros x; unfold policy_row_kept; apply andb_assoc).
  symmetry. eapply Forall2_map_eq; [|exact FE]. intros x y H. apply H.
Qed.

End PolicyKept.

Ltac eval_eqb :=
  repeat match goal with
         | |- context [Ascii.eqb ?a ?b] =>
             tryif first [ is_var a | is_var b ] then fail
             else (let v := eval vm_compute in (Ascii.eqb a b) in
                   change (Ascii.eqb a b) with v)
         end.

(** Past the year, no four characters of the layout read ["0020"]: a
    hyphen is always among them. *)
Lemma no_0020_past_year (y2 y3 y4 m1 m2 d1 d2 : ascii) :
  Str.contains "0020"
    (String y2 (String y3 (String y4 (String "-"
      (String m1 (String m2 (String "-" (String d1 (String d2 ""))))))))) = false.
Proof.
  cbn [Str.contains Str.startswith]. eval_eqb.
  cbn [andb]. rewrite ?andb_false_r. reflexivity.
Qed.

(** X13.  On a string laid out as YYYY-MM-DD the typo repair acts exactly
    when the year is ["0020"], and then turns it into ["2020"]; every other
    string of that layout is left as it is, whatever its month and day. *)
Theorem fix_date_on_iso_layout (y1 y2 y3 y4 m1 m2 d1 d2 : ascii) :
  fix_date (iso_layout y1 y2 y3 y4 m1 m2 d1 d2) =
  if String.eqb (String y1 (String y2 (String y3 (String y4 "")))) "0020"
  then iso_layout "2" "0" "2" "0" m1 m2 d1 d2
  else iso_layout y1 y2 y3 y4 m1 m2 d1 d2.
Proof.
  unfold fix_date, iso_layout.
  match goal with
  | |- context [Str.contains ?p (String ?c ?t)] =>
      change (Str.contains p (String c t))
        with (Str.startswith p (String c t) || Str.contains p t)
  end.
  rewrite no_0020_past_year, orb_false_r.
  cbn [Str.startswith String.eqb Str.drop append].
  destruct (Ascii.eqb_spec "0" y1) as [<-|N1];
    [|destruct (Ascii.eqb_spec y1 "0"); [congruence|reflexivity]].
  destruct (Ascii.eqb_spec "0" y2) as [<-|N2];
    [|destruct (Ascii.eqb_spec y2 "0"); [congruence|reflexivity]].
  destruct (Ascii.eqb_spec "2" y3) as [<-|N3];
    [|destruct (Ascii.eqb_spec y3 "2"); [congruence|reflexivity]].
  destruct (Ascii.eqb_spec "0" y4) as [<-|N4];
    [|destruct (Ascii.eqb_spec y4 "0"); [congruence|reflexivity]].
  reflexivity.
Qed.

(** * Further properties of the loaders and the caches *)

Lemma load_covid_agree (path : string) (force_reload : bool) (w w2 : world) :
  agree_on [path] w w2 ->
  fst (load_covid_data path force_reload w2) =
  fst (load_covid_data path force_reload w).
Proof.
  intros (Hrc & _ & Hf). specialize (Hf path (or_introl eq_refl)).
  io_unfold. cbv beta. rewrite <- Hf.
  destruct (files w path) as [[]|] eqn:Ef, force_reload; simpl;
    rewrite <- ?Hf, ?Ef, <- ?Hrc; destruct (remote_cases w); reflexivity.
Qed.

Section CacheMore.

Variable to_datetime : string -> option Z.
Variable lower : string -> string.
Variable STATES : list State.
Variable STATES_AND_TERRITORIES : list State.
Variable lookup : string -> option State.

Local Abbreviation run_covid := (clean_covid_data to_datetime lower).
Local Abbreviation run_policy :=
  (clean_policy_data to_datetime lower STATES STATES_AND_TERRITORIES lookup).
Local Abbreviation re_cases := (recompute_cases to_datetime lower).
Local Abbreviation re_policies :=
  (recompute_policies to_datetime lower STATES STATES_AND_TERRITORIES lookup).
Local Abbreviation save_policies :=
  (clean_and_save_policies to_datetime lower STATES STATES_AND_TERRITORIES lookup).




End CacheMore.

(** * The further properties on the sample frames *)

Lemma output_rows_pass_filters_witness :
  Forall
    (fun r => exists x, In x Sample.two_counties /\ passes_filters x = true /\
                        rc_index x = index r)
    Sample.timeseries.
Proof.
  apply Forall_forall. intros r Hr.
  destruct (output_rows_pass_filters Date.iso_to_datetime Str.lower Sample.two_counties
              Sample.timeseries r) as [(x & Hx & Hp & Hi & _) _].
  - vm_compute. reflexivity.
  - exact Hr.
  - exists x. auto.
Defined.

Lemma output_labels_are_filtered_labels_witness :
  map index Sample.timeseries =
  map rc_index (filter passes_filters Sample.two_counties).
Proof.
  apply (output_labels_are_filtered_labels Date.iso_to_datetime Str.lower).
  - unique_labels.
  - vm_compute. reflexivity.
Defined.

Lemma population_overrides_witness :
  Forall
    (fun r =>
       (county r = "chugach"%string -> state r = "Alaska"%string ->
        total_population r = 7102) /\
       (county r = "copper river"%string -> state r = "Alaska"%string ->
        total_population r = 2617))
    Sample.alaska_cleaned.
Proof.
  apply Forall_forall. intros r Hr.
  destruct (population_overrides Date.iso_to_datetime Str.lower Sample.alaska
              Sample.alaska_cleaned r) as (H1 & H2 & _).
  - vm_compute. reflexivity.
  - exact Hr.
  - split; assumption.
Defined.

Lemma output_has_no_gaps_witness :
  Forall (fun r => new_cases_7day r <> None /\ (0 <= new_cases_1e6 r)%Q)
    Sample.alaska_cleaned.
Proof.
  apply Forall_forall. intros r Hr.
  destruct (output_has_no_gaps Date.iso_to_datetime Str.lower Sample.alaska
              Sample.alaska_cleaned r) as (H1 & _ & H3 & _).
  - vm_compute. reflexivity.
  - exact Hr.
  - split; assumption.
Defined.

Lemma averages_normalised_after_fill_witness :
  Forall
    (fun r => exists a, new_cases_7day r = Some a /\
                        new_cases_7day_1e6 r =
                        Some (a / (inject_Z (total_population r) / 100000))%Q)
    Sample.timeseries.
Proof.
  apply Forall_forall. intros r Hr.
  destruct (averages_normalised_after_fill Date.iso_to_datetime Str.lower
              Sample.two_counties Sample.timeseries r)
    as (a & b & Ha & _ & Hn & _).
  - vm_compute. reflexivity.
  - exact Hr.
  - unfold Sample.timeseries in Hr. simpl in Hr.
    repeat (destruct Hr as [<-|Hr]; [discriminate|]). contradiction.
  - exists a. auto.
Defined.

Lemma feed_averages_kept_witness :
  Forall2
    (fun x r =>
       forall q, rc_new_cases_7_day_rolling_avg x = Some q ->
                 new_cases_7day r = Some q)
    (filter passes_filters Sample.two_counties) Sample.timeseries.
Proof.
  eapply Forall2_impl;
    [|apply (feed_averages_kept Date.iso_to_datetime Str.lower Sample.two_counties)].
  - simpl. intros x r (_ & H & _). exact H.
  - unique_labels.
  - vm_compute. reflexivity.
Defined.

Lemma lone_row_average_witness :
  exists r,
    nth_error Sample.timeseries 10 = Some r /\
    new_cases_7day r = Some (inject_Z (new_cases r) / 7)%Q.
Proof.
  assert (U : unique_index rc_index Sample.two_counties) by unique_labels.
  assert (H : clean_covid_df Date.iso_to_datetime Str.lower Sample.two_counties =
              Ok Sample.timeseries) by (vm_compute; reflexivity).
  pose proof (lone_row_average Date.iso_to_datetime Str.lower Sample.two_counties
                Sample.timeseries U H) as F.
  assert (Ex : nth_error (filter passes_filters Sample.two_counties) 10 =
               Some (nth 10 Sample.two_counties (Sample.day 0 "" 0 None 0)))
    by (vm_compute; reflexivity).
  destruct (Forall2_nth_error _ _ _ _ _ F Ex) as (r & Hr & R).
  exists r. split; [exact Hr|].
  vm_compute in Hr. injection Hr as <-.
  apply R; [vm_compute; discriminate| |reflexivity].
  intros y Hy. unfold Sample.timeseries in Hy. simpl in Hy.
  repeat (destruct Hy as [<-|Hy];
          [simpl; intros Hl Hw; first [reflexivity|discriminate Hl|lia]|]).
  contradiction.
Defined.

Lemma output_policies_are_named_actions_witness :
  Forall
    (fun r => ~ In (p_policy_type r) policies_drop /\
              exists r0, In r0 Sample.policies /\ p_index r = rp_index r0 /\
                         In (rp_state_id r0) (map abbr Us.STATES))
    Sample.cleaned_policies.
Proof.
  apply Forall_forall. intros r Hr.
  destruct (output_policies_are_named_actions Date.iso_to_datetime Str.lower
              Us.STATES Us.STATES_AND_TERRITORIES Us.lookup Sample.timeseries
              Sample.policies Sample.cleaned_policies r)
    as (H1 & r0 & s & H0 & Hi & Hs & Ha & _).
  - vm_compute. reflexivity.
  - exact Hr.
  - split; [assumption|]. exists r0. rewrite <- Ha. auto using in_map.
Defined.

Lemma state_rows_get_state_fips_witness :
  Forall
    (fun r =>
       exists r0,
         In r0 Sample.policies /\ p_index r = rp_index r0 /\
         (replace_cell (mapping Us.STATES_AND_TERRITORIES abbr name)
            (rp_policy_level r0) = "state"%string ->
          state_fips Us.STATES_AND_TERRITORIES Us.lookup
            (replace_cell (mapping Us.STATES_AND_TERRITORIES abbr name)
               (rp_state_id r0)) = Ok (p_fips_code r)) /\
         (replace_cell (mapping Us.STATES_AND_TERRITORIES abbr name)
            (rp_policy_level r0) <> "state"%string ->
          rp_fips_code r0 = Some (p_fips_code r)))
    Sample.cleaned_policies.
Proof.
  apply Forall_forall. intros r Hr.
  apply (state_rows_get_state_fips Date.iso_to_datetime Str.lower Us.STATES
           Us.STATES_AND_TERRITORIES Us.lookup Sample.timeseries
           Sample.policies Sample.cleaned_policies r).
  - unique_labels.
  - vm_compute. reflexivity.
  - exact Hr.
Defined.



Lemma output_policy_labels_are_filtered_labels_witness :
  exists lo hi,
    series_min (map date Sample.timeseries) = Ok lo /\
    series_max (map date Sample.timeseries) = Ok hi /\
    map p_index Sample.cleaned_policies =
    map rp_index
      (filter (policy_row_kept Date.iso_to_datetime Str.lower Us.STATES
                 Us.STATES_AND_TERRITORIES lo hi) Sample.policies).
Proof.
  apply (output_policy_labels_are_filtered_labels Date.iso_to_datetime Str.lower
           Us.STATES Us.STATES_AND_TERRITORIES Us.lookup).
  - unique_labels.
  - vm_compute. reflexivity.
Defined.
